(** * lifetimes.plotting: the numeric core behind the diagnostic plots

    A shallow embedding of [lifetimes/plotting.py].  Every plotting function
    is embedded as the function that computes what is handed to the renderer
    (the matrix given to [imshow], the series given to [plot]); the calls into
    matplotlib themselves are not modelled.

    Numbers.  A finite float is modelled by the exact rational it denotes
    ([Qc], canonical rationals, so that equality is Leibniz equality);
    rounding and overflow are not modelled.  The one non-finite value the
    code can create by itself, the NaN that pandas returns as the maximum of
    an empty column, is modelled by [pyfloat]. *)

From Stdlib Require Import QArith Qcanon.
From stdpp Require Import base option list list_numbers numbers strings sorting pretty.

Local Open Scope Z_scope.

(** ** Python runtime *)

Module Py.

(** The built-in exceptions the embedded code can raise. *)
Inductive exn : Set :=
| AttributeError   (* [model.data] on a model that was never fitted *)
| KeyError         (* a dict or column key that does not exist *)
| IndexError       (* a position outside an array or frame *)
| ValueError.      (* [int(nan)], [min] of an empty sequence, a negative dimension *)

Inductive result (A : Type) : Type :=
| Ok (a : A)
| Raise (e : exn).
Global Arguments Ok {A} a.
Global Arguments Raise {A} e.

Definition bind {A B} (m : result A) (k : A → result B) : result B :=
  match m with
  | Ok a => k a
  | Raise e => Raise e
  end.

Definition raises {A} (m : result A) : Prop := ∃ e, m = Raise e.

Global Instance exn_eq_dec : EqDecision exn.
Proof. solve_decision. Defined.

Global Instance result_eq_dec {A} `{EqDecision A} : EqDecision (result A).
Proof. solve_decision. Defined.

(** [for x in xs: s = body(s, x)], the loop state threaded explicitly. *)
Fixpoint for_each {A S} (body : S → A → result S) (xs : list A) (s : S) : result S :=
  match xs with
  | [] => Ok s
  | x :: xs' => bind (body s x) (for_each body xs')
  end.

(** [enumerate(xs)] *)
Definition enumerate {A} (xs : list A) : list (nat * A) :=
  zip (seq 0 (length xs)) xs.

(** A float: [NaN], or the finite value [q]. *)
Inductive pyfloat : Set :=
| NaN
| Fin (q : Qc).

Definition of_Z (n : Z) : pyfloat := Fin (Qc_of_Z n).

Definition lift2 (op : Qc → Qc → Qc) (x y : pyfloat) : pyfloat :=
  match x, y with
  | Fin a, Fin b => Fin (op a b)
  | _, _ => NaN
  end.

Definition fadd := lift2 Qcplus.
Definition fsub := lift2 Qcminus.
Definition fmul := lift2 Qcmult.

(** Division; the quotient by zero (an infinity or NaN in numpy) is
    outside the model and rendered as [NaN].  The divisors of this module
    are never zero. *)
Definition fdiv (x y : pyfloat) : pyfloat :=
  match x, y with
  | Fin a, Fin b => if decide (b = Q2Qc 0) then NaN else Fin (a / b)%Qc
  | _, _ => NaN
  end.

(** [int(x)]: truncation toward zero; [int(nan)] raises [ValueError]. *)
Definition int (x : pyfloat) : result Z :=
  match x with
  | NaN => Raise ValueError
  | Fin q => Ok (Z.quot (Qnum (this q)) (Z.pos (Qden (this q))))
  end.

(** [min(xs)] of a sequence; [min] of an empty sequence raises [ValueError]. *)
Definition min (xs : list Z) : result Z :=
  match xs with
  | [] => Raise ValueError
  | x :: xs' => Ok (foldl Z.min x xs')
  end.

End Py.

Import Py.

Global Instance result_ret : MRet result := @Ok.
Global Instance result_bind : MBind result := λ A B k m, Py.bind m k.
Global Instance result_fmap : FMap result := λ A B f m,
  match m with
  | Ok a => Ok (f a)
  | Raise e => Raise e
  end.

(** ** numpy *)

Module Np.

(** A two-dimensional array of floats, as the list of its rows. *)
Abbreviation ndarray2 := (list (list Qc)).

(** [np.zeros((rows, cols))]; a negative dimension raises [ValueError]. *)
Definition zeros (rows cols : Z) : result ndarray2 :=
  if decide (rows < 0 ∨ cols < 0) then Raise ValueError
  else Ok (replicate (Z.to_nat rows) (replicate (Z.to_nat cols) (Q2Qc 0))).

(** [np.arange(n)]: [0, 1, ..., n-1], empty when [n <= 0]. *)
Definition arange (n : Z) : list Z := seqZ 0 n.

(** [Z[i, j] = v]; a position outside the array raises [IndexError]. *)
Definition setitem (Z : ndarray2) (i j : nat) (v : Qc) : result ndarray2 :=
  match Z !! i with
  | Some row =>
      if decide (j < length row)%nat then Ok (<[i := <[j := v]> row]> Z)
      else Raise IndexError
  | None => Raise IndexError
  end.

(** [np.linspace(start, stop, num)] with the default [endpoint=True]:
<<
    step = (stop - start) / float(num - 1)
    y = arange(0, num) * step + start
    y[-1] = stop
>> *)
Definition linspace (start stop : pyfloat) (num : nat) : list pyfloat :=
  match num with
  | O => []
  | S O => [start]
  | S n =>
      let step := fdiv (fsub stop start) (of_Z (Z.of_nat n)) in
      let y := (λ i : nat, fadd (fmul (of_Z (Z.of_nat i)) step) start) <$> seq 0 num in
      <[n := stop]> y
  end.

(** [Z[i, j]] *)
Definition getitem (Z : ndarray2) (i j : nat) : option Qc :=
  row ← Z !! i; row !! j.

(** [Z.shape == (rows, cols)] *)
Definition has_shape (Z : ndarray2) (rows cols : nat) : Prop :=
  length Z = rows ∧ Forall (λ row, length row = cols) Z.

End Np.

(** ** pandas *)

Module Pd.

Definition Qc_max (a b : Qc) : Qc := if decide (a ≤ b)%Qc then b else a.

(** [Series.max()]: the largest entry, [nan] for an empty column. *)
Definition series_max (col : list Qc) : pyfloat :=
  match col with
  | [] => NaN
  | x :: xs => Fin (foldl Qc_max x xs)
  end.

(** [Series.mean()] of a non-empty column: the sum over the count. *)
Definition mean (xs : list Qc) : Qc :=
  (foldr Qcplus (Q2Qc 0) xs / Qc_of_Z (Z.of_nat (length xs)))%Qc.

(** The index of a [groupby]: the distinct key values, ascending. *)
Fixpoint insert_key (k : Qc) (ks : list Qc) : list Qc :=
  match ks with
  | [] => [k]
  | k' :: ks' =>
      if decide (k = k') then ks
      else if decide (k ≤ k')%Qc then k :: ks
      else k' :: insert_key k ks'
  end.

Definition group_keys {A} (key : A → Qc) (rows : list A) : list Qc :=
  foldr insert_key [] (key <$> rows).

(** [frame.groupby(key)]: every distinct key with the rows that carry
    exactly that key, in the order of the frame. *)
Definition groupby {A} (key : A → Qc) (rows : list A) : list (Qc * list A) :=
  (λ k, (k, filter (λ r, key r = k) rows)) <$> group_keys key rows.

(** [grouped[[c1, c2]].mean()]: a frame indexed by the key, holding the
    mean of the two columns over each group. *)
Definition mean2 {A} (c1 c2 : A → Qc) (groups : list (Qc * list A))
    : list (Qc * (Qc * Qc)) :=
  (λ g, (g.1, (mean (c1 <$> g.2), mean (c2 <$> g.2)))) <$> groups.

Fixpoint take_while {A} (p : A → bool) (l : list A) : list A :=
  match l with
  | [] => []
  | x :: l' => if p x then x :: take_while p l' else []
  end.

(** [frame.ix[:n]] on a frame whose index is numeric and ascending, as the
    index of a [groupby] over a numeric column is.  [.ix] is label based
    on a numeric axis (it falls back to positions only when the axis is
    not numeric), and a label slice includes its end point: the rows kept
    are those whose label is at most [n]. *)
Definition ix_to {B} (n : Z) (frame : list (Qc * B)) : list (Qc * B) :=
  take_while (λ r, bool_decide (r.1 ≤ Qc_of_Z n)%Qc) frame.

(** A frequency ([freq='D'], ['W'], ...) as far as [date_range] uses it,
    time stamps counted in ticks: [rollforward] moves a time stamp onto the
    grid of the frequency (to the first grid point that is not before it,
    to itself when it is on the grid), and [shift] adds one period. *)
Record DateOffset : Type := {
  rollforward : Z → Z;
  shift : Z → Z
}.

(** A tick frequency such as ['D'], the default of [plot_history_alive]:
    every time stamp is on its grid, and a period is [step] ticks.  An
    anchored frequency such as ['W'] has a grid of its own (the Sundays) and
    is not of this form. *)
Definition tick (step : positive) : DateOffset :=
  {| rollforward := λ t, t; shift := λ t, t + Z.pos step |}.

Fixpoint generate_range (freq : DateOffset) (cur : Z) (periods : nat) : list Z :=
  match periods with
  | O => []
  | S periods' => cur :: generate_range freq (shift freq cur) periods'
  end.

(** [pd.date_range(start=start, periods=periods, freq=freq)]: [start]
    rolled forward onto the frequency, then one date per period. *)
Definition date_range (start : Z) (periods : nat) (freq : DateOffset) : list Z :=
  generate_range freq (rollforward freq start) periods.

(** What a call of [DataFrame.plot] can raise besides the exceptions of
    [Py]: [TypeError], for a frame without rows (there is no numeric data
    to plot). *)
Inductive plot_exn : Set :=
| PyExn (e : Py.exn)
| TypeError.

End Pd.

(** ** More of the Python runtime: division, [range], [%d] *)

Module Builtins.

(** The exceptions of [Py], and the one that float division adds. *)
Inductive exn : Set :=
| Builtin (e : Py.exn)
| ZeroDivisionError.

(** [x / y] on Python floats: a zero divisor raises [ZeroDivisionError].
    Operands that are [numpy.float64] divide by zero to [inf] or [nan]
    without raising; that case is outside this definition, and nothing below
    is stated about a zero divisor. *)
Definition truediv (x y : Qc) : exn + Qc :=
  if decide (y = Q2Qc 0) then inl ZeroDivisionError else inr (x / y)%Qc.

(** [abs(x)] *)
Definition abs (x : Qc) : Qc :=
  if decide (Q2Qc 0 ≤ x)%Qc then x else (- x)%Qc.

(** [range(n)], its members as numbers. *)
Definition range (n : Z) : list Qc := Qc_of_Z <$> seqZ 0 n.

(** [l[:-1]]: all but the last member; empty for an empty sequence. *)
Definition but_last {A} (l : list A) : list A := take (length l - 1) l.

(** The integer that ['%d' % x] prints for a finite [x]: [x] truncated
    toward zero, as [int] does. *)
Definition trunc (x : Qc) : Z := Z.quot (Qnum (this x)) (Z.pos (Qden (this x))).

End Builtins.

(** ** matplotlib *)

Module Mpl.

(** The extent of an image, [(left, right, bottom, top)], as
    [get_extent] returns it. *)
Definition extent : Type := Qc * Qc * Qc * Qc.

(** The extent [imshow] gives an array of [rows] by [cols] cells when no
    extent and no origin are passed: the cells are centred on the integers,
    the first row at the top. *)
Definition imshow_extent (rows cols : nat) : extent :=
  ((- Q2Qc (1 # 2))%Qc,
   (Qc_of_Z (Z.of_nat cols) - Q2Qc (1 # 2))%Qc,
   (Qc_of_Z (Z.of_nat rows) - Q2Qc (1 # 2))%Qc,
   (- Q2Qc (1 # 2))%Qc).

End Mpl.

(** ** The fitted model, as far as this file uses it *)

(** [model.data]: the summary columns the model was fitted on. *)
Module Data.
Record DataFrame : Type := {
  frequency : list Qc;
  recency : list Qc;
  T : list Qc
}.
End Data.

Record Model : Type := {
  (** [None]: the model was never fitted and has no [data] attribute. *)
  data : option Data.DataFrame;
  conditional_expected_number_of_purchases_up_to_time : Qc → Qc → Qc → Qc → Qc;
  (** Scalar version; applied to an array the method works element-wise. *)
  expected_number_of_purchases_up_to_time : pyfloat → pyfloat;
  conditional_probability_alive_matrix : option Z → option Z → Np.ndarray2;
  (** The capability [probabilityAliveAt(age, frequency, recency)] of the
      specification, arguments in that order. *)
  probabilityAliveAt : Z → Z → Z → Qc
}.

Definition get_data (model : Model) : result Data.DataFrame :=
  match data model with
  | Some d => Ok d
  | None => Raise AttributeError
  end.

(** ** lifetimes.plotting *)

Module Plotting.

(** The inner loop of [plot_frequency_recency_matrix], row [i]:
<<
    for j, x in enumerate(np.arange(max_x + 1)):
        Z[i, j] = model.conditional_expected_number_of_purchases_up_to_time(T, x, t_x, max_t)
>> *)
Definition fill_row (model : Model) (T : Qc) (max_x max_t : Z)
    (i : nat) (t_x : Z) (Z : Np.ndarray2) : result Np.ndarray2 :=
  for_each
    (λ Z '(j, x),
       Np.setitem Z i j
         (conditional_expected_number_of_purchases_up_to_time model
            T (Qc_of_Z x) (Qc_of_Z t_x) (Qc_of_Z max_t)))
    (enumerate (Np.arange (max_x + 1))) Z.

(** [if bound is None: bound = int(model.data[column].max())] *)
Definition default_bound (model : Model) (column : Data.DataFrame → list Qc)
    (bound : option Z) : result Z :=
  match bound with
  | None => d ← get_data model; Py.int (Pd.series_max (column d))
  | Some v => Ok v
  end.

(** The matrix [Z] that [plot_frequency_recency_matrix] hands to [imshow]. *)
Definition plot_frequency_recency_matrix (model : Model) (T : Qc)
    (max_x max_t : option Z) : result Np.ndarray2 :=
  max_x ← default_bound model Data.frequency max_x;
  max_t ← default_bound model Data.T max_t;
  Z ← Np.zeros (max_t + 1) (max_x + 1);
  for_each (λ Z '(i, t_x), fill_row model T max_x max_t i t_x Z)
    (enumerate (Np.arange (max_t + 1))) Z.

(** One row of the frame from [calibration_and_holdout_data]; the entries
    are finite numbers. *)
Record CalibrationHoldoutRow : Type := {
  frequency_cal : Qc;
  recency_cal : Qc;
  T_cal : Qc;
  frequency_holdout : Qc;
  duration_holdout : Qc
}.

(** A row of [summary]: the input row and the column added to it. *)
Record SummaryRow : Type := {
  row :> CalibrationHoldoutRow;
  model_predictions : Qc
}.

Definition x_labels : list (string * string) :=
  [ ("frequency_cal", "Purchases in calibration period");
    ("recency_cal", "Age of customer at last purchase");
    ("T_cal", "Age of customer at the end of calibration period");
    ("time_since_last_purchase", "Time since user made last purchase") ]%string.

(** The column [summary[kind]] for the four kinds that [x_labels] knows;
    [time_since_last_purchase] is the column the function derives. *)
Definition kind_column (kind : string) : option (SummaryRow → Qc) :=
  if decide (kind = "time_since_last_purchase"%string)
  then Some (λ r : SummaryRow, T_cal r - recency_cal r)%Qc
  else if decide (kind = "frequency_cal"%string) then Some (λ r : SummaryRow, frequency_cal r)
  else if decide (kind = "recency_cal"%string) then Some (λ r : SummaryRow, recency_cal r)
  else if decide (kind = "T_cal"%string) then Some (λ r : SummaryRow, T_cal r)
  else None.

(** Lines 56 to 59: [duration_holdout] is read from the first row
    ([iloc[0]] of an empty frame raises [IndexError]) and every row gets
    its prediction. *)
Definition add_model_predictions (model : Model)
    (calibration_holdout_matrix : list CalibrationHoldoutRow) : result (list SummaryRow) :=
  match calibration_holdout_matrix with
  | [] => Raise IndexError
  | r0 :: _ =>
      let duration_holdout := duration_holdout r0 in
      Ok ((λ r, {| row := r;
                   model_predictions :=
                     conditional_expected_number_of_purchases_up_to_time model
                       duration_holdout (frequency_cal r) (recency_cal r) (T_cal r) |})
            <$> calibration_holdout_matrix)
  end.

(** The frame that [plot_calibration_purchases_vs_holdout_purchases]
    hands to [.plot]: one line per group, the group's key, the mean of
    [frequency_holdout] and the mean of [model_predictions].  What [.plot]
    does with the frame is not part of this definition (see
    [plot_calibration_call] for the empty frame).  A [kind] outside
    [x_labels] is not followed through the call: the result stands for
    the [KeyError] that [groupby] or [x_labels[kind]] raises for it when
    nothing else has been raised before. *)
Definition plot_calibration_purchases_vs_holdout_purchases (model : Model)
    (calibration_holdout_matrix : list CalibrationHoldoutRow)
    (kind : string) (n : Z) : result (list (Qc * (Qc * Qc))) :=
  summary ← add_model_predictions model calibration_holdout_matrix;
  match kind_column kind with
  | Some column =>
      Ok (Pd.ix_to n
            (Pd.mean2 (λ r : SummaryRow, frequency_holdout r) model_predictions
               (Pd.groupby column summary)))
  | None => Raise KeyError
  end.

(** The matrix [z] that [plot_probability_alive_matrix] hands to [imshow]. *)
Definition plot_probability_alive_matrix (model : Model)
    (max_x max_t : option Z) : result Np.ndarray2 :=
  let z := conditional_probability_alive_matrix model max_x max_t in
  Ok z.

(** The two curves of [plot_expected_repeat_purchases], each as the pair
    (times, values) given to [plt.plot]: the solid one, then the dashed one. *)
Definition plot_expected_repeat_purchases (model : Model)
    : result ((list pyfloat * list pyfloat) * (list pyfloat * list pyfloat)) :=
  d ← get_data model;
  let max_T := Pd.series_max (Data.T d) in
  let times := Np.linspace (of_Z 0) max_T 100 in
  let solid := (times, expected_number_of_purchases_up_to_time model <$> times) in
  let times := Np.linspace max_T (fmul (Fin (Q2Qc (3 # 2))) max_T) 100 in
  let dashed := (times, expected_number_of_purchases_up_to_time model <$> times) in
  Ok (solid, dashed).

(** The tick positions and tick labels that [plot_period_transactions]
    gives to [plt.xticks]: [np.arange(len(bins))[:-1] + 0.5] and [bins[:-1]]. *)
Definition period_xticks (bins : list Qc) : list Qc * list Qc :=
  ((λ i, Qc_of_Z i + Q2Qc (1 # 2))%Qc <$> Builtins.but_last (Np.arange (Z.of_nat (length bins))),
   Builtins.but_last bins).

(** The title of [plot_frequency_recency_matrix]:
<<
    'Expected Number of Future Purchases for %d Unit%s of Time,'
    '\nby Frequency and Recency of a Customer' % (T, "s"[T == 1:])
>> *)
Definition frequency_recency_title (T : Qc) : string :=
  "Expected Number of Future Purchases for " +:+ pretty (Builtins.trunc T)
  +:+ " Unit" +:+ (if decide (T = Qc_of_Z 1) then "" else "s") +:+ " of Time,"
  +:+ String (Ascii.ascii_of_nat 10) "by Frequency and Recency of a Customer".

(** [forceAspect(ax, aspect)]: the value given to [ax.set_aspect], from the
    extents of the images of [ax].
<<
    im = ax.get_images()
    extent = im[0].get_extent()
    ax.set_aspect(abs((extent[1] - extent[0]) / (extent[3] - extent[2])) / aspect)
>> *)
Definition forceAspect (images : list Mpl.extent) (aspect : Qc) : Builtins.exn + Qc :=
  match images with
  | [] => inl (Builtins.Builtin IndexError)
  | (extent0, extent1, extent2, extent3) :: _ =>
      match Builtins.truediv (extent1 - extent0)%Qc (extent3 - extent2)%Qc with
      | inl e => inl e
      | inr ratio => Builtins.truediv (Builtins.abs ratio) aspect
      end
  end.

(** The limits [plot_history_alive] gives to [plt.xlim], for the keyword
    [start_date] ([None] when the caller does not pass it) and for the
    [path] that [calculate_alive_path] returned:
<<
    start_date = kwargs.pop('start_date', min(transactions[datetime_col]))
    ...
    path_dates = pd.date_range(start=min(transactions[datetime_col]), periods=len(path), freq=freq)
    ...
    plt.xlim(start_date, path_dates[-1])
>>
    The default of [pop] is an argument, so [min] is computed whether or
    not the keyword is passed; [path_dates[-1]] raises [IndexError] when the
    path is empty. *)
Definition history_alive_xlim (transactions : list Z) (path : list Qc)
    (freq : Pd.DateOffset) (start_date : option Z) : result (Z * Z) :=
  first ← Py.min transactions;
  let start_date := default first start_date in
  start ← Py.min transactions;
  let path_dates := Pd.date_range start (length path) freq in
  match last path_dates with
  | Some stop => Ok (start_date, stop)
  | None => Raise IndexError
  end.

(** How a call of [plot_calibration_purchases_vs_holdout_purchases] with
    one of the four kinds of [x_labels] ends: with the exception of line 57
    for a frame without rows, with the [TypeError] of [.plot] when [.ix[:n]]
    has kept no group, and with the plotted frame otherwise.  [None]: a
    frame with rows and a kind outside [x_labels]; what such a call raises
    depends on whether the kind names a column, and is not followed here. *)
Definition plot_calibration_call (model : Model)
    (calibration_holdout_matrix : list CalibrationHoldoutRow)
    (kind : string) (n : Z) : option (Pd.plot_exn + list (Qc * (Qc * Qc))) :=
  match calibration_holdout_matrix with
  | [] => Some (inl (Pd.PyExn IndexError))
  | _ :: _ =>
      match kind_column kind with
      | None => None
      | Some _ =>
          match plot_calibration_purchases_vs_holdout_purchases
                  model calibration_holdout_matrix kind n with
          | Raise e => Some (inl (Pd.PyExn e))
          | Ok [] => Some (inl Pd.TypeError)
          | Ok frame => Some (inr frame)
          end
      end
  end.

End Plotting.

(** ** The words of the specification *)

Module Spec.

(** [m] is the maximum observed value of a column. *)
Definition is_max (m : Qc) (col : list Qc) : Prop :=
  m ∈ col ∧ ∀ x, x ∈ col → (x ≤ m)%Qc.

(** [z] is [q] truncated to an integer: the integer next to [q] on the
    side of zero. *)
Definition truncated (q : Qc) (z : Z) : Prop :=
  ((Q2Qc 0 ≤ q)%Qc → (Qc_of_Z z ≤ q)%Qc ∧ (q < Qc_of_Z (z + 1))%Qc)
  ∧ ((q ≤ Q2Qc 0)%Qc → (Qc_of_Z (z - 1) < q)%Qc ∧ (q ≤ Qc_of_Z z)%Qc).

(** [n] time points over [[a, b]], evenly spaced: point [i] lies at
    [a + i * (b - a) / (n - 1)]. *)
Definition evenly_spaced (a b : Qc) (n : nat) (ts : list pyfloat) : Prop :=
  length ts = n
  ∧ ∀ i : nat, (i < n)%nat →
      ts !! i = Some (Fin (a + Qc_of_Z (Z.of_nat i) * (b - a) / Qc_of_Z (Z.of_nat n - 1))%Qc).

(** The rows all carry the identical [duration_holdout]. *)
Definition same_duration (rows : list Plotting.CalibrationHoldoutRow) : Prop :=
  ∀ r r', r ∈ rows → r' ∈ rows →
    Plotting.duration_holdout r = Plotting.duration_holdout r'.

(** Of the groups in ascending order of the covariate, the first [topN]. *)
Definition first_topN {B} (topN : Z) (groups : list (Qc * B)) : list (Qc * B) :=
  take (Z.to_nat topN) groups.

(** A grid of probabilities for the bounds [max_x] and [max_t]: of shape
    [(max_t + 1, max_x + 1)], every value within [[0, 1]]. *)
Definition valid_alive_grid (max_x max_t : Z) (z : list (list Qc)) : Prop :=
  Np.has_shape z (Z.to_nat (max_t + 1)) (Z.to_nat (max_x + 1))
  ∧ Forall (Forall (λ v, (Qc_of_Z 0 ≤ v)%Qc ∧ (v ≤ Qc_of_Z 1)%Qc)) z.

End Spec.

(** ** Concrete inputs *)

Module Examples.

Definition qz (n : Z) : Qc := Qc_of_Z n.

(** The scenario of the specification: three customers. *)
Definition three_customers : Data.DataFrame :=
  {| Data.frequency := qz <$> [0; 2; 5];
     Data.recency := qz <$> [0; 12; 21];
     Data.T := qz <$> [10; 20; 30] |}.

(** Customers whose largest observed age is 10. *)
Definition ten_units : Data.DataFrame :=
  {| Data.frequency := qz <$> [1; 0; 3];
     Data.recency := qz <$> [2; 0; 6];
     Data.T := qz <$> [4; 10; 7] |}.

(** A single customer observed for no time at all. *)
Definition zero_age : Data.DataFrame :=
  {| Data.frequency := [qz 0]; Data.recency := [qz 0]; Data.T := [qz 0] |}.

Definition holdout_row (f r t h d : Z) : Plotting.CalibrationHoldoutRow :=
  {| Plotting.frequency_cal := qz f; Plotting.recency_cal := qz r;
     Plotting.T_cal := qz t; Plotting.frequency_holdout := qz h;
     Plotting.duration_holdout := qz d |}.

(** Four customers with 2, 0, 1 and 0 purchases in the calibration period,
    all with a holdout period of 3. *)
Definition holdout_rows : list Plotting.CalibrationHoldoutRow :=
  [ holdout_row 2 1 5 3 3; holdout_row 0 0 5 1 3;
    holdout_row 1 1 5 0 3; holdout_row 0 0 4 2 3 ].

(** Two customers whose rows disagree on [duration_holdout]. *)
Definition mismatched_rows : list Plotting.CalibrationHoldoutRow :=
  [ holdout_row 1 2 5 3 1; holdout_row 2 4 5 1 2 ].

(** A model whose predictions let one read the arguments off the result. *)
Definition toy_model (d : option Data.DataFrame) : Model :=
  {| data := d;
     conditional_expected_number_of_purchases_up_to_time :=
       λ t x t_x T, (t + qz 10 * x + qz 100 * t_x + qz 1000 * T)%Qc;
     expected_number_of_purchases_up_to_time := λ t, fmul (of_Z 2) t;
     conditional_probability_alive_matrix := λ _ _, [[qz 2]];
     probabilityAliveAt := λ age frequency recency, qz (age + 10 * frequency + 100 * recency) |}.

End Examples.

(** * Properties *)

(** ** Loops *)

Section loops.
Context {A S : Type}.
Implicit Types (body : S → nat * A → result S) (xs : list A).

Lemma for_each_ext (f g : S → A → result S) (l : list A) (s : S) :
  (∀ s x, f s x = g s x) → for_each f l s = for_each g l s.
Proof.
  intros Hfg. revert s. induction l as [|x l IH]; intros s; simpl; [done|].
  rewrite Hfg. destruct (g s x); simpl; auto.
Qed.

Lemma for_each_zip_seq_inv (I : nat → S → Prop) body xs start s0 :
  I start s0 →
  (∀ k x s, xs !! k = Some x → I (start + k)%nat s →
     ∃ s', body s ((start + k)%nat, x) = Ok s' ∧ I (Datatypes.S (start + k)) s') →
  ∃ s', for_each body (zip (seq start (length xs)) xs) s0 = Ok s'
        ∧ I (start + length xs)%nat s'.
Proof.
  revert start s0. induction xs as [|x xs IH]; intros start s0 H0 Hstep; simpl.
  - exists s0. by rewrite Nat.add_0_r.
  - destruct (Hstep 0%nat x s0) as (s1 & Hb & H1); [done| by rewrite Nat.add_0_r |].
    rewrite Nat.add_0_r in Hb, H1. rewrite Hb. simpl.
    destruct (IH (Datatypes.S start) s1) as (s' & Hs' & HI); [done| |].
    + intros k y s Hy HI. specialize (Hstep (Datatypes.S k) y s Hy).
      rewrite Nat.add_succ_r in Hstep. by apply Hstep.
    + exists s'. split; [done|]. by rewrite Nat.add_succ_r.
Qed.

(** The invariant rule of [for i, x in enumerate(xs)]. *)
Lemma for_each_enumerate_inv (I : nat → S → Prop) body xs s0 :
  I 0%nat s0 →
  (∀ k x s, xs !! k = Some x → I k s →
     ∃ s', body s (k, x) = Ok s' ∧ I (Datatypes.S k) s') →
  ∃ s', for_each body (enumerate xs) s0 = Ok s' ∧ I (length xs) s'.
Proof.
  intros H0 Hstep.
  by apply (for_each_zip_seq_inv I body xs 0 s0).
Qed.
End loops.

(** ** The grid evaluator: [plot_frequency_recency_matrix] *)

Section grid.
Variables (model : Model) (T : Qc) (max_x max_t : Z).

(** The value the code stores at row [i], column [j]. *)
Let cell (i j : nat) : Qc :=
  conditional_expected_number_of_purchases_up_to_time model
    T (Qc_of_Z (Z.of_nat j)) (Qc_of_Z (Z.of_nat i)) (Qc_of_Z max_t).

Lemma setitem_ok (Z : Np.ndarray2) (rows cols i j : nat) (v : Qc) :
  Np.has_shape Z rows cols → (i < rows)%nat → (j < cols)%nat →
  ∃ row, Z !! i = Some row ∧ length row = cols
         ∧ Np.setitem Z i j v = Ok (<[i := <[j := v]> row]> Z).
Proof.
  intros [Hlen Hrows] Hi Hj.
  destruct (lookup_lt_is_Some_2 Z i) as [row Hrow]; [lia|].
  pose proof (Forall_lookup_1 _ _ _ _ Hrows Hrow) as Hc. simpl in Hc.
  exists row. split_and!; [done..|].
  unfold Np.setitem. rewrite Hrow. by rewrite decide_True by lia.
Qed.

Lemma has_shape_insert (Z : Np.ndarray2) (rows cols i : nat) (row : list Qc) :
  Np.has_shape Z rows cols → length row = cols →
  Np.has_shape (<[i := row]> Z) rows cols.
Proof.
  intros [Hlen Hrows] Hrow. split; [by rewrite length_insert|].
  destruct (decide (i < length Z)%nat).
  - by apply Forall_insert.
  - by rewrite list_insert_ge by lia.
Qed.

(** The inner loop fills row [i] and leaves the other rows alone. *)
Lemma fill_row_spec (Z : Np.ndarray2) (rows i : nat) :
  Np.has_shape Z rows (Z.to_nat (max_x + 1)) → (i < rows)%nat →
  ∃ Z', Plotting.fill_row model T max_x max_t i (Z.of_nat i) Z = Ok Z'
        ∧ Np.has_shape Z' rows (Z.to_nat (max_x + 1))
        ∧ (∀ i', i' ≠ i → Z' !! i' = Z !! i')
        ∧ (∀ j, (j < Z.to_nat (max_x + 1))%nat → Np.getitem Z' i j = Some (cell i j)).
Proof.
  intros Hshape Hi. unfold Plotting.fill_row.
  set (cols := Z.to_nat (max_x + 1)) in *.
  set (I := λ (k : nat) (Z' : Np.ndarray2),
         Np.has_shape Z' rows cols
         ∧ (∀ i', i' ≠ i → Z' !! i' = Z !! i')
         ∧ (∀ j, (j < k)%nat → Np.getitem Z' i j = Some (cell i j))).
  assert (∃ Z', Plotting.fill_row model T max_x max_t i (Z.of_nat i) Z = Ok Z'
              ∧ I (length (Np.arange (max_x + 1))) Z') as (Z' & HZ' & Hs & Ho & Hc).
{ apply for_each_enumerate_inv.
  - split_and!; [done|done|]. intros j ?; lia.
  - intros k x Z1 Hx (Hs1 & Ho1 & Hc1).
    apply lookup_seqZ in Hx as [-> Hk]. simpl in Hk.
    destruct (setitem_ok Z1 rows cols i k (cell i k)) as (row & Hrow & Hlen & Hset);
      [done|done|unfold cols; lia|].
    eexists. split.
    { rewrite Z.add_0_l. exact Hset. }
    split_and!.
    + apply has_shape_insert; [done|]. by rewrite length_insert.
    + intros i' Hi'. rewrite list_lookup_insert_ne by done. by apply Ho1.
    + intros j Hj. unfold Np.getitem.
      rewrite list_lookup_insert_eq by (destruct Hs1 as [-> _]; lia). simpl.
      destruct (decide (j = k)) as [->|Hne].
      * by rewrite list_lookup_insert_eq by (unfold cols in *; lia).
      * rewrite list_lookup_insert_ne by done.
        specialize (Hc1 j ltac:(lia)). unfold Np.getitem in Hc1.
        by rewrite Hrow in Hc1. }
exists Z'. split; [exact HZ'|]. split_and!; [done..|].
intros j Hj. apply Hc. unfold Np.arange. by rewrite length_seqZ.
Qed.
(** The two loops together, started on the array of zeros. *)
Lemma fill_grid_spec :
  -1 ≤ max_x → -1 ≤ max_t →
  ∃ g, (Z0 ← Np.zeros (max_t + 1) (max_x + 1);
        for_each (λ Z '(i, t_x), Plotting.fill_row model T max_x max_t i t_x Z)
          (enumerate (Np.arange (max_t + 1))) Z0) = Ok g
       ∧ Np.has_shape g (Z.to_nat (max_t + 1)) (Z.to_nat (max_x + 1))
       ∧ (∀ i j, (i < Z.to_nat (max_t + 1))%nat → (j < Z.to_nat (max_x + 1))%nat →
            Np.getitem g i j = Some (cell i j)).
Proof.
  intros Hx Ht. unfold Np.zeros. rewrite decide_False by lia.
  set (rows := Z.to_nat (max_t + 1)). set (cols := Z.to_nat (max_x + 1)).
  set (Z0 := replicate rows (replicate cols (Q2Qc 0))).
  set (I := λ (k : nat) (Z' : list (list Qc)),
         Np.has_shape Z' rows cols
         ∧ (∀ i j, (i < k)%nat → (j < cols)%nat → Np.getitem Z' i j = Some (cell i j))).
  change (Ok Z0 ≫= ?k) with (k Z0).
  assert (∃ g, for_each (λ Z '(i, t_x), Plotting.fill_row model T max_x max_t i t_x Z)
                 (enumerate (Np.arange (max_t + 1))) Z0 = Ok g
               ∧ I (length (Np.arange (max_t + 1))) g) as (g & Hg & Hs & Hc).
  { apply for_each_enumerate_inv.
    - split.
      + unfold Z0. split; [by rewrite length_replicate|].
        apply Forall_replicate. by rewrite length_replicate.
      + intros i j ?; lia.
    - intros k x Z1 Hx1 (Hs1 & Hc1).
      apply lookup_seqZ in Hx1 as [-> Hk]. rewrite Z.add_0_l.
      destruct (fill_row_spec Z1 rows k) as (Z2 & HZ2 & Hs2 & Ho2 & Hc2);
        [done|unfold rows; lia|].
      exists Z2. split; [done|]. split; [done|].
      intros i j Hi Hj. destruct (decide (i = k)) as [->|Hne]; [by apply Hc2|].
      unfold Np.getitem. rewrite Ho2 by done. apply Hc1; lia. }
  exists g. split; [done|]. split; [done|].
  intros i j Hi Hj. apply Hc; [|done]. unfold Np.arange. by rewrite length_seqZ.
Qed.
End grid.

Lemma plot_frequency_recency_matrix_spec model T mx mt max_x max_t :
  Plotting.default_bound model Data.frequency mx = Ok max_x →
  Plotting.default_bound model Data.T mt = Ok max_t →
  -1 ≤ max_x → -1 ≤ max_t →
  ∃ g, Plotting.plot_frequency_recency_matrix model T mx mt = Ok g
       ∧ Np.has_shape g (Z.to_nat (max_t + 1)) (Z.to_nat (max_x + 1))
       ∧ (∀ i j, (i < Z.to_nat (max_t + 1))%nat → (j < Z.to_nat (max_x + 1))%nat →
            Np.getitem g i j =
              Some (conditional_expected_number_of_purchases_up_to_time model
                      T (Qc_of_Z (Z.of_nat j)) (Qc_of_Z (Z.of_nat i)) (Qc_of_Z max_t))).
Proof.
  intros Hmx Hmt Hx Ht. unfold Plotting.plot_frequency_recency_matrix.
  rewrite Hmx, Hmt.
  change (Ok max_x ≫= ?k) with (k max_x). change (Ok max_t ≫= ?k) with (k max_t).
  cbv beta. by apply fill_grid_spec.
Qed.


(** ** Default bounds: the largest observed value, truncated *)

Lemma Qc_max_ge_l (a b : Qc) : (a ≤ Pd.Qc_max a b)%Qc.
Proof. unfold Pd.Qc_max. case_decide; [done|apply Qcle_refl]. Qed.

Lemma Qc_max_ge_r (a b : Qc) : (b ≤ Pd.Qc_max a b)%Qc.
Proof.
  unfold Pd.Qc_max. case_decide; [apply Qcle_refl|].
  apply Qclt_le_weak. by apply Qclt_nge.
Qed.

Lemma Qc_max_cases (a b : Qc) : Pd.Qc_max a b = a ∨ Pd.Qc_max a b = b.
Proof. unfold Pd.Qc_max. case_decide; auto. Qed.

Lemma foldl_Qc_max_is_max (x : Qc) (xs : list Qc) :
  Spec.is_max (foldl Pd.Qc_max x xs) (x :: xs).
Proof.
  revert x. induction xs as [|y ys IH]; intros x; simpl.
  - split; [apply list_elem_of_here|].
    intros z ->%list_elem_of_singleton. apply Qcle_refl.
  - destruct (IH (Pd.Qc_max x y)) as [Hin Hle]. split.
    + apply elem_of_cons in Hin as [->|Hin].
      * destruct (Qc_max_cases x y) as [->| ->];
          [apply list_elem_of_here|apply list_elem_of_further, list_elem_of_here].
      * by do 2 apply list_elem_of_further.
    + intros z Hz.
      assert (Pd.Qc_max x y ≤ foldl Pd.Qc_max (Pd.Qc_max x y) ys)%Qc as Hm
        by apply Hle, list_elem_of_here.
      apply elem_of_cons in Hz as [->|Hz].
      { eapply Qcle_trans; [apply Qc_max_ge_l|exact Hm]. }
      apply elem_of_cons in Hz as [->|Hz].
      { eapply Qcle_trans; [apply Qc_max_ge_r|exact Hm]. }
      by apply Hle, list_elem_of_further.
Qed.

(** [Series.max()] of a non-empty column is its maximum. *)
Lemma series_max_is_max (col : list Qc) :
  col ≠ [] → ∃ m, Pd.series_max col = Fin m ∧ Spec.is_max m col.
Proof.
  destruct col as [|x xs]; [done|]. intros _. eexists. split; [done|].
  apply foldl_Qc_max_is_max.
Qed.

(** [int] of a finite float truncates it. *)
Lemma int_truncated (q : Qc) :
  ∃ z, Py.int (Fin q) = Ok z ∧ Spec.truncated q z.
Proof.
  eexists. split; [done|].
  destruct q as [[n d] Hc]. unfold Spec.truncated, Qcle, Qclt, Qle, Qlt. simpl.
  pose proof (Z.quot_rem' n (Z.pos d)) as Hqr.
  split; intros Hs.
  - pose proof (Z.rem_bound_pos n (Z.pos d) ltac:(lia) ltac:(lia)). nia.
  - pose proof (Z.rem_bound_pos (- n) (Z.pos d) ltac:(lia) ltac:(lia)) as Hr.
    rewrite Z.rem_opp_l' in Hr. nia.
Qed.

Lemma default_bound_None (model : Model) (column : Data.DataFrame → list Qc)
    (d : Data.DataFrame) :
  data model = Some d → column d ≠ [] →
  ∃ m z, Spec.is_max m (column d) ∧ Spec.truncated m z
         ∧ Plotting.default_bound model column None = Ok z.
Proof.
  intros Hd Hcol. destruct (series_max_is_max _ Hcol) as (m & Hm & Hmax).
  destruct (int_truncated m) as (z & Hz & Htr).
  exists m, z. split_and!; [done..|].
  unfold Plotting.default_bound, get_data. rewrite Hd. simpl. by rewrite Hm.
Qed.

(** ** Claims about the grid evaluator *)

(** C1.  For every recency bucket [r] in [[0, max_t]] and frequency bucket
    [f] in [[0, max_x]], cell [[r][f]] of the matrix that
    [plot_frequency_recency_matrix] builds is
    [model.conditional_expected_number_of_purchases_up_to_time(T, f, r, max_t)]:
    the age passed at every cell is the largest recency of the grid, not an
    age of the cell.  [max_x] and [max_t] are the bounds in force, given or
    derived. *)
Theorem grid_cell_is_prediction_at_max_recency
    (model : Model) (T : Qc) (mx mt : option Z) (max_x max_t : Z) :
  Plotting.default_bound model Data.frequency mx = Ok max_x →
  Plotting.default_bound model Data.T mt = Ok max_t →
  0 ≤ max_x → 0 ≤ max_t →
  ∃ g, Plotting.plot_frequency_recency_matrix model T mx mt = Ok g
       ∧ ∀ r f : Z, 0 ≤ r ≤ max_t → 0 ≤ f ≤ max_x →
           Np.getitem g (Z.to_nat r) (Z.to_nat f) =
             Some (conditional_expected_number_of_purchases_up_to_time model
                     T (Qc_of_Z f) (Qc_of_Z r) (Qc_of_Z max_t)).
Proof.
  intros Hmx Hmt Hx Ht.
  destruct (plot_frequency_recency_matrix_spec model T mx mt max_x max_t)
    as (g & Hg & _ & Hcell); [done|done|lia|lia|].
  exists g. split; [done|]. intros r f Hr Hf.
  rewrite Hcell by lia. by rewrite !Z2Nat.id by lia.
Qed.

Lemma grid_cell_is_prediction_at_max_recency_witness :
  ∃ g, Plotting.plot_frequency_recency_matrix
         (Examples.toy_model None) (Examples.qz 1) (Some 2) (Some 1) = Ok g
       ∧ ∀ r f : Z, 0 ≤ r ≤ 1 → 0 ≤ f ≤ 2 →
           Np.getitem g (Z.to_nat r) (Z.to_nat f) =
             Some (conditional_expected_number_of_purchases_up_to_time
                     (Examples.toy_model None)
                     (Examples.qz 1) (Qc_of_Z f) (Qc_of_Z r) (Qc_of_Z 1)).
Proof.
  apply (grid_cell_is_prediction_at_max_recency
           (Examples.toy_model None) (Examples.qz 1) (Some 2) (Some 1) 2 1);
    [reflexivity | reflexivity | lia | lia].
Defined.



(** C10.  With both bounds given, the matrix does not depend on the data
    the model was fitted on: two models that agree on
    [conditional_expected_number_of_purchases_up_to_time] yield the same
    result, whatever their data (the columns are read only to derive a bound
    that is not given). *)
Theorem grid_independent_of_training_data
    (m1 m2 : Model) (T : Qc) (max_x max_t : Z) :
  (∀ t x t_x age,
     conditional_expected_number_of_purchases_up_to_time m1 t x t_x age =
     conditional_expected_number_of_purchases_up_to_time m2 t x t_x age) →
  Plotting.plot_frequency_recency_matrix m1 T (Some max_x) (Some max_t) =
  Plotting.plot_frequency_recency_matrix m2 T (Some max_x) (Some max_t).
Proof.
  intros Hagree. unfold Plotting.plot_frequency_recency_matrix. simpl.
  destruct (Np.zeros (max_t + 1) (max_x + 1)) as [Z0|e]; [simpl|done].
  apply for_each_ext. intros Z [i t_x]. unfold Plotting.fill_row.
  apply for_each_ext. intros Z' [j x]. by rewrite Hagree.
Qed.

Lemma grid_independent_of_training_data_witness :
  Plotting.plot_frequency_recency_matrix
    (Examples.toy_model None) (Examples.qz 1) (Some 5) (Some 30) =
  Plotting.plot_frequency_recency_matrix
    (Examples.toy_model (Some Examples.three_customers)) (Examples.qz 1) (Some 5) (Some 30).
Proof.
  apply (grid_independent_of_training_data
           (Examples.toy_model None)
           (Examples.toy_model (Some Examples.three_customers))
           (Examples.qz 1) 5 30).
  intros t x t_x age. reflexivity.
Defined.

(** ** [np.linspace] *)

Lemma length_linspace (start stop : pyfloat) (num : nat) :
  length (Np.linspace start stop num) = num.
Proof.
  destruct num as [|[|n]]; [done..|].
  unfold Np.linspace. by rewrite length_insert, length_fmap, length_seq.
Qed.

(** The last point is [stop] itself, whatever the arithmetic gives. *)
Lemma linspace_last (start stop : pyfloat) (n : nat) :
  Np.linspace start stop (S (S n)) !! S n = Some stop.
Proof.
  unfold Np.linspace. apply list_lookup_insert_eq.
  rewrite length_fmap, length_seq. lia.
Qed.

Lemma linspace_lookup (start stop : pyfloat) (n i : nat) :
  (i < S n)%nat →
  Np.linspace start stop (S (S n)) !! i =
    Some (fadd (fmul (of_Z (Z.of_nat i))
                  (fdiv (fsub stop start) (of_Z (Z.of_nat (S n))))) start).
Proof.
  intros Hi. unfold Np.linspace.
  rewrite list_lookup_insert_ne by lia.
  rewrite list_lookup_fmap, lookup_seq_lt by lia. done.
Qed.

Lemma Qc_of_nat_S_neq_0 (n : nat) : Qc_of_Z (Z.of_nat (S n)) ≠ Q2Qc 0.
Proof.
  rewrite <-Z2Qc_inj_0. intros H%Z2Qc_inj. lia.
Qed.

Ltac float_arith :=
  unfold fadd, fsub, fmul, fdiv, lift2, of_Z;
  repeat (rewrite decide_False by apply Qc_of_nat_S_neq_0).

(** The first point is [start] itself, unless [stop] alone is NaN (the
    step is NaN then, and so is every point). *)
Lemma linspace_head (start stop : pyfloat) (n : nat) :
  (stop = NaN → start = NaN) →
  Np.linspace start stop (S (S n)) !! 0%nat = Some start.
Proof.
  intros Hnan. rewrite linspace_lookup by lia. f_equal.
  destruct start as [|a], stop as [|b]; float_arith; try done.
  { by specialize (Hnan eq_refl). }
  f_equal. change (Z.of_nat 0) with 0. rewrite Z2Qc_inj_0. ring.
Qed.

(** On finite end points the points are evenly spaced over [[a, b]]. *)
Lemma linspace_evenly_spaced (a b : Qc) (n : nat) :
  Spec.evenly_spaced a b (S (S n)) (Np.linspace (Fin a) (Fin b) (S (S n))).
Proof.
  split; [apply length_linspace|]. intros i Hi.
  pose proof (Qc_of_nat_S_neq_0 n) as Hn.
  replace (Z.of_nat (S (S n)) - 1) with (Z.of_nat (S n)) by lia.
  destruct (decide (i = S n)) as [->|Hne].
  - rewrite linspace_last. do 2 f_equal. field. exact Hn.
  - rewrite linspace_lookup by lia. float_arith.
    do 2 f_equal. field. exact Hn.
Qed.

(** Consecutive points of an evenly spaced series are the same distance
    apart, and the series runs from [a] to [b]. *)
Lemma evenly_spaced_steps (a b : Qc) (n : nat) (ts : list pyfloat) :
  Spec.evenly_spaced a b (S (S n)) ts →
  ts !! 0%nat = Some (Fin a) ∧ ts !! S n = Some (Fin b)
  ∧ ∀ i : nat, (i < S n)%nat →
      ∃ p q, ts !! i = Some (Fin p) ∧ ts !! S i = Some (Fin q)
             ∧ (q - p = (b - a) / Qc_of_Z (Z.of_nat (S n)))%Qc.
Proof.
  intros [Hlen Hts]. pose proof (Qc_of_nat_S_neq_0 n) as Hn.
  assert (Z.of_nat (S (S n)) - 1 = Z.of_nat (S n)) as Hz by lia.
  rewrite Hz in Hts. split_and!.
  - rewrite Hts by lia. do 2 f_equal. change (Z.of_nat 0) with 0.
    rewrite Z2Qc_inj_0. field. exact Hn.
  - rewrite Hts by lia. do 2 f_equal. field. exact Hn.
  - intros i Hi. eexists _, _. split_and!; [apply Hts; lia|apply Hts; lia|].
    rewrite Nat2Z.inj_succ, <-Z.add_1_r, Z2Qc_inj_add, Z2Qc_inj_1.
    field. exact Hn.
Qed.

(** ** Claims about [plot_expected_repeat_purchases] *)

Lemma plot_expected_repeat_purchases_spec (model : Model) (d : Data.DataFrame) :
  data model = Some d →
  let f := expected_number_of_purchases_up_to_time model in
  let max_T := Pd.series_max (Data.T d) in
  let t1 := Np.linspace (of_Z 0) max_T 100 in
  let t2 := Np.linspace max_T (fmul (Fin (Q2Qc (3 # 2))) max_T) 100 in
  Plotting.plot_expected_repeat_purchases model = Ok ((t1, f <$> t1), (t2, f <$> t2)).
Proof.
  intros Hd. unfold Plotting.plot_expected_repeat_purchases, get_data.
  by rewrite Hd.
Qed.

(** C6.  The solid curve of [plot_expected_repeat_purchases] has exactly
    100 evenly spaced time points over [[0, max_T]] and the dashed one 100
    evenly spaced points over [[max_T, 1.5 * max_T]], each point mapped
    through [model.expected_number_of_purchases_up_to_time]; with
    [max_T = 10] the two series run from 0 to 10 and from 10 to 15. *)
Theorem repeat_purchase_curves_evenly_spaced
    (model : Model) (d : Data.DataFrame) (max_T : Qc) :
  data model = Some d →
  Pd.series_max (Data.T d) = Fin max_T →
  ∃ t1 t2 : list pyfloat,
    Plotting.plot_expected_repeat_purchases model =
      Ok ((t1, expected_number_of_purchases_up_to_time model <$> t1),
          (t2, expected_number_of_purchases_up_to_time model <$> t2))
    ∧ Spec.evenly_spaced (Qc_of_Z 0) max_T 100 t1
    ∧ Spec.evenly_spaced max_T (Q2Qc (3 # 2) * max_T)%Qc 100 t2
    ∧ (max_T = Qc_of_Z 10 →
       length t1 = 100%nat ∧ t1 !! 0%nat = Some (of_Z 0) ∧ t1 !! 99%nat = Some (of_Z 10)
       ∧ length t2 = 100%nat ∧ t2 !! 0%nat = Some (of_Z 10) ∧ t2 !! 99%nat = Some (of_Z 15)).
Proof.
  intros Hd Hmax. eexists _, _. split; [by apply plot_expected_repeat_purchases_spec|].
  rewrite Hmax. cbn [fmul lift2].
  pose proof (linspace_evenly_spaced (Qc_of_Z 0) max_T 98) as H1.
  pose proof (linspace_evenly_spaced max_T (Q2Qc (3 # 2) * max_T)%Qc 98) as H2.
  split_and!; [exact H1|exact H2|]. intros ->.
  destruct (evenly_spaced_steps _ _ _ _ H1) as (H10 & H1n & _).
  destruct (evenly_spaced_steps _ _ _ _ H2) as (H20 & H2n & _).
  split_and!; [apply length_linspace|exact H10|exact H1n
              |apply length_linspace|exact H20|].
  rewrite H2n. unfold of_Z. do 2 f_equal. apply Qc_is_canon. reflexivity.
Qed.

Lemma repeat_purchase_curves_evenly_spaced_witness :
  ∃ t1 t2 : list pyfloat,
    Plotting.plot_expected_repeat_purchases (Examples.toy_model (Some Examples.ten_units)) =
      Ok ((t1, expected_number_of_purchases_up_to_time
                 (Examples.toy_model (Some Examples.ten_units)) <$> t1),
          (t2, expected_number_of_purchases_up_to_time
                 (Examples.toy_model (Some Examples.ten_units)) <$> t2))
    ∧ Spec.evenly_spaced (Qc_of_Z 0) (Qc_of_Z 10) 100 t1
    ∧ Spec.evenly_spaced (Qc_of_Z 10) (Q2Qc (3 # 2) * Qc_of_Z 10)%Qc 100 t2
    ∧ (Qc_of_Z 10 = Qc_of_Z 10 →
       length t1 = 100%nat ∧ t1 !! 0%nat = Some (of_Z 0) ∧ t1 !! 99%nat = Some (of_Z 10)
       ∧ length t2 = 100%nat ∧ t2 !! 0%nat = Some (of_Z 10) ∧ t2 !! 99%nat = Some (of_Z 15)).
Proof.
  apply (repeat_purchase_curves_evenly_spaced
           (Examples.toy_model (Some Examples.ten_units)) Examples.ten_units (Qc_of_Z 10));
    reflexivity.
Defined.

(** C7, as the code has it.  A largest observed age that is zero or
    negative is not rejected: the function still returns its two curves of
    100 evenly spaced points each, over [[0, max_T]] and
    [[max_T, 1.5 * max_T]]. *)
Theorem repeat_purchase_curves_without_positive_age
    (model : Model) (d : Data.DataFrame) (max_T : Qc) :
  data model = Some d →
  Pd.series_max (Data.T d) = Fin max_T →
  (max_T ≤ Qc_of_Z 0)%Qc →
  ¬ raises (Plotting.plot_expected_repeat_purchases model)
  ∧ ∃ t1 t2 : list pyfloat,
      Plotting.plot_expected_repeat_purchases model =
        Ok ((t1, expected_number_of_purchases_up_to_time model <$> t1),
            (t2, expected_number_of_purchases_up_to_time model <$> t2))
      ∧ Spec.evenly_spaced (Qc_of_Z 0) max_T 100 t1
      ∧ Spec.evenly_spaced max_T (Q2Qc (3 # 2) * max_T)%Qc 100 t2.
Proof.
  intros Hd Hmax _.
  pose proof (plot_expected_repeat_purchases_spec model d Hd) as Hplot.
  cbv zeta in Hplot. split.
  - intros [e He]. by rewrite Hplot in He.
  - eexists _, _. split; [exact Hplot|].
    rewrite Hmax. cbn [fmul lift2].
    split; apply linspace_evenly_spaced.
Qed.

Lemma repeat_purchase_curves_without_positive_age_witness :
  ¬ raises (Plotting.plot_expected_repeat_purchases
              (Examples.toy_model (Some Examples.zero_age)))
  ∧ ∃ t1 t2 : list pyfloat,
      Plotting.plot_expected_repeat_purchases (Examples.toy_model (Some Examples.zero_age)) =
        Ok ((t1, expected_number_of_purchases_up_to_time
                   (Examples.toy_model (Some Examples.zero_age)) <$> t1),
            (t2, expected_number_of_purchases_up_to_time
                   (Examples.toy_model (Some Examples.zero_age)) <$> t2))
      ∧ Spec.evenly_spaced (Qc_of_Z 0) (Qc_of_Z 0) 100 t1
      ∧ Spec.evenly_spaced (Qc_of_Z 0) (Q2Qc (3 # 2) * Qc_of_Z 0)%Qc 100 t2.
Proof.
  apply (repeat_purchase_curves_without_positive_age
           (Examples.toy_model (Some Examples.zero_age)) Examples.zero_age (Qc_of_Z 0));
    [reflexivity | reflexivity | apply Qcle_refl].
Defined.

(** C7 as stated fails: with a largest observed age of 0 the function
    raises nothing and returns its curves. *)
Lemma repeat_purchase_curves_zero_age_returns :
  Pd.series_max (Data.T Examples.zero_age) = Fin (Qc_of_Z 0)
  ∧ (Qc_of_Z 0 ≤ Qc_of_Z 0)%Qc
  ∧ (∃ curves, Plotting.plot_expected_repeat_purchases
                 (Examples.toy_model (Some Examples.zero_age)) = Ok curves)
  ∧ ¬ raises (Plotting.plot_expected_repeat_purchases
                (Examples.toy_model (Some Examples.zero_age))).
Proof.
  split_and!; [reflexivity|apply Qcle_refl|by eexists|].
  intros [e He]. discriminate He.
Qed.

(** C9.  The two curves meet: the last time point of the solid curve and
    the first time point of the dashed curve are both exactly [max_T], both
    are mapped through the same function, and so the last value of the one
    is the first value of the other. *)
Theorem repeat_purchase_curves_meet (model : Model) (d : Data.DataFrame) :
  data model = Some d →
  ∃ t1 v1 t2 v2,
    Plotting.plot_expected_repeat_purchases model = Ok ((t1, v1), (t2, v2))
    ∧ last t1 = Some (Pd.series_max (Data.T d))
    ∧ head t2 = Some (Pd.series_max (Data.T d))
    ∧ last v1 = Some (expected_number_of_purchases_up_to_time model
                        (Pd.series_max (Data.T d)))
    ∧ head v2 = Some (expected_number_of_purchases_up_to_time model
                        (Pd.series_max (Data.T d)))
    ∧ last v1 = head v2.
Proof.
  intros Hd. eexists _, _, _, _.
  split; [by apply plot_expected_repeat_purchases_spec|].
  set (max_T := Pd.series_max (Data.T d)).
  assert (last (Np.linspace (of_Z 0) max_T 100) = Some max_T) as Hlast.
  { rewrite last_lookup, length_linspace. apply linspace_last. }
  assert (head (Np.linspace max_T (fmul (Fin (Q2Qc (3 # 2))) max_T) 100) = Some max_T)
    as Hhead.
  { rewrite head_lookup. apply linspace_head. by destruct max_T. }
  rewrite fmap_last, Hlast.
  rewrite (head_lookup (_ <$> _)), list_lookup_fmap, <-head_lookup, Hhead. done.
Qed.

Lemma repeat_purchase_curves_meet_witness :
  ∃ t1 v1 t2 v2,
    Plotting.plot_expected_repeat_purchases
      (Examples.toy_model (Some Examples.ten_units)) = Ok ((t1, v1), (t2, v2))
    ∧ last t1 = Some (Pd.series_max (Data.T Examples.ten_units))
    ∧ head t2 = Some (Pd.series_max (Data.T Examples.ten_units))
    ∧ last v1 = Some (expected_number_of_purchases_up_to_time
                        (Examples.toy_model (Some Examples.ten_units))
                        (Pd.series_max (Data.T Examples.ten_units)))
    ∧ head v2 = Some (expected_number_of_purchases_up_to_time
                        (Examples.toy_model (Some Examples.ten_units))
                        (Pd.series_max (Data.T Examples.ten_units)))
    ∧ last v1 = head v2.
Proof.
  apply (repeat_purchase_curves_meet
           (Examples.toy_model (Some Examples.ten_units)) Examples.ten_units).
  reflexivity.
Defined.

(** ** [groupby]: the index is the set of keys, ascending *)

Lemma elem_of_insert_key (x k : Qc) (ks : list Qc) :
  x ∈ Pd.insert_key k ks ↔ x = k ∨ x ∈ ks.
Proof.
  induction ks as [|k' ks IH]; simpl.
  - rewrite list_elem_of_singleton. split; [auto|]. intros [?|H]; [done|inversion H].
  - repeat case_decide; subst; rewrite ?elem_of_cons, ?IH, ?elem_of_cons; intuition congruence.
Qed.

Lemma insert_key_sorted (k : Qc) (ks : list Qc) :
  StronglySorted Qclt ks → StronglySorted Qclt (Pd.insert_key k ks).
Proof.
  induction 1 as [|k' ks Hs IH Hall]; simpl.
  - by repeat constructor.
  - case_decide as Heq; [by constructor|].
    case_decide as Hle.
    + assert (k < k')%Qc as Hlt.
      { destruct (Qcle_lt_or_eq _ _ Hle); [done|by subst]. }
      constructor; [by constructor|]. constructor; [done|].
      eapply Forall_impl; [exact Hall|]. intros y Hy. by eapply Qclt_trans.
    + constructor; [done|].
      apply Forall_forall. intros y [->|Hy]%elem_of_insert_key.
      * by apply Qclt_nge.
      * by eapply Forall_forall in Hall.
Qed.

Lemma group_keys_sorted {A} (key : A → Qc) (rows : list A) :
  StronglySorted Qclt (Pd.group_keys key rows).
Proof.
  unfold Pd.group_keys. induction rows as [|r rows IH]; simpl; [constructor|].
  by apply insert_key_sorted.
Qed.

Lemma elem_of_group_keys {A} (key : A → Qc) (rows : list A) (k : Qc) :
  k ∈ Pd.group_keys key rows ↔ ∃ r, r ∈ rows ∧ key r = k.
Proof.
  unfold Pd.group_keys. induction rows as [|r rows IH]; simpl.
  - split; [intros H; inversion H|]. intros (r & H & _). inversion H.
  - rewrite elem_of_insert_key, IH. split.
    + intros [->|(r' & Hr' & <-)]; [exists r|exists r'];
        (split; [|done]); [apply list_elem_of_here|by apply list_elem_of_further].
    + intros (r' & [->|Hr']%elem_of_cons & <-); [by left|right; by exists r'].
Qed.

(** Every row sits in the group of its own key, and a group holds only
    rows of the frame that carry its key. *)
Lemma groupby_partition {A} (key : A → Qc) (rows : list A) (r : A) :
  r ∈ rows ↔ ∃ g, g ∈ Pd.groupby key rows ∧ r ∈ g.2 ∧ key r = g.1.
Proof.
  unfold Pd.groupby. split.
  - intros Hr. exists (key r, filter (λ r', key r' = key r) rows). split_and!; [|simpl|done].
    + apply list_elem_of_fmap. exists (key r). split; [done|].
      apply elem_of_group_keys. by exists r.
    + by apply list_elem_of_filter.
  - intros (g & Hg & Hr & _). apply list_elem_of_fmap in Hg as (k & -> & _).
    simpl in Hr. by apply list_elem_of_filter in Hr as [_ ?].
Qed.

Lemma filter_none {A} (P : A → Prop) `{!∀ x, Decision (P x)} (l : list A) :
  Forall (λ x, ¬ P x) l → filter P l = [].
Proof.
  induction 1 as [|x l Hx _ IH]; [done|]. by rewrite filter_cons_False.
Qed.

Lemma take_while_sorted {B} (n : Qc) (frame : list (Qc * B)) :
  StronglySorted Qclt frame.*1 →
  Pd.take_while (λ r, bool_decide (r.1 ≤ n)%Qc) frame
  = filter (λ r, (r.1 ≤ n)%Qc) frame.
Proof.
  induction frame as [|[k b] frame IH]; simpl; [done|].
  intros Hs. apply StronglySorted_inv in Hs as [Hs Hall].
  rewrite filter_cons. simpl. case_bool_decide as Hk.
  - rewrite decide_True by done. by rewrite IH.
  - rewrite decide_False by done. symmetry.
    apply filter_none, Forall_forall. intros [k' b'] Hin Hle. simpl in Hle.
    apply Hk. apply Qclt_le_weak. eapply Qclt_le_trans; [|exact Hle].
    eapply Forall_forall in Hall; [exact Hall|].
    apply list_elem_of_fmap. by exists (k', b').
Qed.

(** What [.ix[:n]] keeps of the grouped means: the groups whose key is at
    most [n], however many they are. *)
Lemma ix_to_groupby_mean {A} (key c1 c2 : A → Qc) (rows : list A) (n : Z) :
  Pd.ix_to n (Pd.mean2 c1 c2 (Pd.groupby key rows))
  = filter (λ g, (g.1 ≤ Qc_of_Z n)%Qc) (Pd.mean2 c1 c2 (Pd.groupby key rows)).
Proof.
  unfold Pd.ix_to. apply take_while_sorted.
  unfold Pd.mean2, Pd.groupby. rewrite <-!list_fmap_compose.
  replace (_ <$> Pd.group_keys key rows) with (Pd.group_keys key rows);
    [apply group_keys_sorted|].
  induction (Pd.group_keys key rows) as [|k ks IH]; simpl; [done|]. by f_equal.
Qed.

(** ** Claims about [plot_calibration_purchases_vs_holdout_purchases] *)

(** C3, the code at a failing input.  For four customers with 2, 0, 1 and 0
    calibration purchases and [n = 1], grouping by [frequency_cal] yields the
    three groups 0, 1 and 2 in ascending order with the arithmetic means of
    their members, and [.ix[:n]] keeps the groups 0 and 1 (the labels up to
    1): two groups, where the first [n] groups would be one. *)
Theorem aggregate_keeps_labels_up_to_n_not_first_n :
  let model := Examples.toy_model None in
  let groups :=
    [ (Examples.qz 0, (Q2Qc (3 # 2), Examples.qz 4503));
      (Examples.qz 1, (Examples.qz 0, Examples.qz 5113));
      (Examples.qz 2, (Examples.qz 3, Examples.qz 5123)) ] in
  Plotting.plot_calibration_purchases_vs_holdout_purchases model
    Examples.holdout_rows "frequency_cal" 1 = Ok (take 2 groups)
  ∧ Ok (Spec.first_topN 1 groups) ≠
    Plotting.plot_calibration_purchases_vs_holdout_purchases model
      Examples.holdout_rows "frequency_cal" 1.
Proof.
  split.
  - apply (bool_decide_unpack _). vm_compute. exact I.
  - apply (bool_decide_unpack _). vm_compute. exact I.
Qed.

(** In general: on a non-empty frame and for a kind that [x_labels] knows,
    the function returns the mean rows of all groups whose covariate value is
    at most [n]. *)
Lemma aggregate_result_by_label (model : Model)
    (r0 : Plotting.CalibrationHoldoutRow) (rest : list Plotting.CalibrationHoldoutRow)
    (kind : string) (column : Plotting.SummaryRow → Qc) (n : Z) :
  Plotting.kind_column kind = Some column →
  ∃ summary,
    Plotting.add_model_predictions model (r0 :: rest) = Ok summary
    ∧ Plotting.plot_calibration_purchases_vs_holdout_purchases model (r0 :: rest) kind n
      = Ok (filter (λ g, (g.1 ≤ Qc_of_Z n)%Qc)
              (Pd.mean2 (λ r : Plotting.SummaryRow, Plotting.frequency_holdout (Plotting.row r))
                 Plotting.model_predictions (Pd.groupby column summary))).
Proof.
  intros Hkind. eexists. split; [done|].
  unfold Plotting.plot_calibration_purchases_vs_holdout_purchases.
  cbn [Plotting.add_model_predictions mbind result_bind Py.bind].
  rewrite Hkind. by rewrite ix_to_groupby_mean.
Qed.

(** C4, as the code has it.  The function does not compare the
    [duration_holdout] of the rows: on a non-empty frame it reads the value
    of the first row and computes the prediction of every row as
    [model.conditional_expected_number_of_purchases_up_to_time(duration_holdout,
    frequency_cal, recency_cal, T_cal)] with that value, raising nothing for
    any of the four kinds; when the rows do carry the identical value, that
    is each row's own [duration_holdout]. *)
Theorem predictions_use_duration_of_first_row (model : Model)
    (r0 : Plotting.CalibrationHoldoutRow) (rest : list Plotting.CalibrationHoldoutRow) :
  ∃ summary,
    Plotting.add_model_predictions model (r0 :: rest) = Ok summary
    ∧ (∀ (i : nat) r, (r0 :: rest) !! i = Some r →
         summary !! i =
           Some {| Plotting.row := r;
                   Plotting.model_predictions :=
                     conditional_expected_number_of_purchases_up_to_time model
                       (Plotting.duration_holdout r0) (Plotting.frequency_cal r)
                       (Plotting.recency_cal r) (Plotting.T_cal r) |})
    ∧ (Spec.same_duration (r0 :: rest) →
       ∀ (i : nat) r, (r0 :: rest) !! i = Some r →
         Plotting.model_predictions <$> summary !! i =
           Some (conditional_expected_number_of_purchases_up_to_time model
                   (Plotting.duration_holdout r) (Plotting.frequency_cal r)
                   (Plotting.recency_cal r) (Plotting.T_cal r)))
    ∧ (∀ kind n, is_Some (Plotting.kind_column kind) →
         ¬ raises (Plotting.plot_calibration_purchases_vs_holdout_purchases
                     model (r0 :: rest) kind n)).
Proof.
  eexists. split; [done|]. split_and!.
  - intros i r Hr. by rewrite list_lookup_fmap, Hr.
  - intros Hsame i r Hr. rewrite list_lookup_fmap, Hr. simpl.
    rewrite (Hsame r r0); [done| |apply list_elem_of_here].
    by eapply list_elem_of_lookup_2.
  - intros kind n [column Hkind] [e He].
    destruct (aggregate_result_by_label model r0 rest kind column n Hkind)
      as (summary & _ & Hplot).
    by rewrite Hplot in He.
Qed.

(** C4 as stated fails: two rows with [duration_holdout] 1 and 2 are
    accepted, and the second row is predicted with the duration of the
    first. *)
Lemma mismatched_durations_are_accepted :
  ¬ Spec.same_duration Examples.mismatched_rows
  ∧ (∃ out, Plotting.plot_calibration_purchases_vs_holdout_purchases
              (Examples.toy_model None) Examples.mismatched_rows "frequency_cal" 7
            = Ok out)
  ∧ ¬ raises (Plotting.plot_calibration_purchases_vs_holdout_purchases
                (Examples.toy_model None) Examples.mismatched_rows "frequency_cal" 7)
  ∧ Plotting.model_predictions <$>
      (default [] (match Plotting.add_model_predictions (Examples.toy_model None)
                           Examples.mismatched_rows with
                   | Ok summary => Some summary
                   | Raise _ => None
                   end)) !! 1%nat
    = Some (conditional_expected_number_of_purchases_up_to_time (Examples.toy_model None)
              (Examples.qz 1) (Examples.qz 2) (Examples.qz 4) (Examples.qz 5)).
Proof.
  split_and!.
  - intros Hsame.
    specialize (Hsame (Examples.holdout_row 1 2 5 3 1) (Examples.holdout_row 2 4 5 1 2)).
    assert (Examples.qz 1 = Examples.qz 2) as Heq.
    { apply Hsame; [apply list_elem_of_here|apply list_elem_of_further, list_elem_of_here]. }
    apply Z2Qc_inj in Heq. lia.
  - by eexists.
  - intros [e He]. discriminate He.
  - reflexivity.
Qed.

(** ** Claims about [plot_probability_alive_matrix] *)

(** C5, as the code has it.  The function hands the two bounds to
    [model.conditional_probability_alive_matrix] exactly as it received them
    (a bound that is not given stays not given: deriving it is left to the
    model) and passes the matrix of the model on unchanged; it checks neither
    the shape nor the values and raises nothing. *)
Theorem alive_matrix_is_returned_unchecked (model : Model) (max_x max_t : option Z) :
  Plotting.plot_probability_alive_matrix model max_x max_t
  = Ok (conditional_probability_alive_matrix model max_x max_t)
  ∧ ¬ raises (Plotting.plot_probability_alive_matrix model max_x max_t).
Proof.
  split; [done|]. intros [e He]. discriminate He.
Qed.

(** C5 as stated fails: a model that answers the bounds (1, 1) with the
    one-cell matrix [[2]], of the wrong shape and with a value above 1, gets
    that matrix through. *)
Lemma invalid_alive_matrix_is_accepted :
  ∃ z, Plotting.plot_probability_alive_matrix (Examples.toy_model None) (Some 1) (Some 1)
       = Ok z
       ∧ ¬ Np.has_shape z 2 2
       ∧ ¬ Forall (Forall (λ v, (Qc_of_Z 0 ≤ v)%Qc ∧ (v ≤ Qc_of_Z 1)%Qc)) z
       ∧ ¬ Spec.valid_alive_grid 1 1 z
       ∧ ¬ raises (Plotting.plot_probability_alive_matrix
                     (Examples.toy_model None) (Some 1) (Some 1)).
Proof.
  eexists. split; [reflexivity|].
  assert (¬ Np.has_shape [[Examples.qz 2]] 2 2) as Hshape.
  { intros [Hlen _]. discriminate Hlen. }
  split_and!; [done| |by intros [? _]|by intros [e He]].
  intros Hall. apply Forall_cons in Hall as [Hrow _].
  apply Forall_cons in Hrow as [[_ Hle] _].
  apply Z2Qc_inj_le in Hle. lia.
Qed.

(** * Further properties of the code *)

(** ** [plot_frequency_recency_matrix]: the whole matrix, and its errors *)

(** The two loops compute the comprehension
    [[[f(T, x, t_x, max_t) for x in range(max_x + 1)] for t_x in range(max_t + 1)]]:
    no cell keeps the zero it was created with, and a bound of -1 yields a
    matrix without columns (respectively without rows). *)
Theorem frequency_recency_matrix_is_comprehension
    (model : Model) (T : Qc) (mx mt : option Z) (max_x max_t : Z) :
  Plotting.default_bound model Data.frequency mx = Ok max_x →
  Plotting.default_bound model Data.T mt = Ok max_t →
  -1 ≤ max_x → -1 ≤ max_t →
  Plotting.plot_frequency_recency_matrix model T mx mt
  = Ok ((λ t_x,
           (λ x, conditional_expected_number_of_purchases_up_to_time model
                   T (Qc_of_Z x) (Qc_of_Z t_x) (Qc_of_Z max_t))
           <$> seqZ 0 (max_x + 1))
          <$> seqZ 0 (max_t + 1)).
Proof.
  intros Hmx Hmt Hx Ht.
  destruct (plot_frequency_recency_matrix_spec model T mx mt max_x max_t)
    as (g & Hg & [Hlen Hrows] & Hcell); [done..|].
  rewrite Hg. f_equal. apply list_eq. intros i.
  rewrite list_lookup_fmap.
  destruct (decide (i < Z.to_nat (max_t + 1))%nat) as [Hi|Hi].
  - rewrite lookup_seqZ_lt by lia. simpl.
    destruct (lookup_lt_is_Some_2 g i) as [row Hrow]; [lia|].
    rewrite Hrow. f_equal.
    pose proof (Forall_lookup_1 _ _ _ _ Hrows Hrow) as Hc. simpl in Hc.
    apply list_eq. intros j. rewrite list_lookup_fmap.
    destruct (decide (j < Z.to_nat (max_x + 1))%nat) as [Hj|Hj].
    + rewrite lookup_seqZ_lt by lia. simpl.
      specialize (Hcell i j Hi Hj). unfold Np.getitem in Hcell.
      rewrite Hrow in Hcell. simpl in Hcell. by rewrite Hcell, !Z.add_0_l.
    + rewrite lookup_seqZ_ge by lia. simpl. apply lookup_ge_None. lia.
  - rewrite lookup_seqZ_ge by lia. simpl. apply lookup_ge_None. lia.
Qed.

Lemma frequency_recency_matrix_is_comprehension_witness :
  Plotting.plot_frequency_recency_matrix
    (Examples.toy_model (Some Examples.ten_units)) (Examples.qz 1) None (Some (-1))
  = Ok ((λ t_x,
           (λ x, conditional_expected_number_of_purchases_up_to_time
                   (Examples.toy_model (Some Examples.ten_units))
                   (Examples.qz 1) (Qc_of_Z x) (Qc_of_Z t_x) (Qc_of_Z (-1)))
           <$> seqZ 0 (3 + 1))
          <$> seqZ 0 (-1 + 1)).
Proof.
  apply (frequency_recency_matrix_is_comprehension
           (Examples.toy_model (Some Examples.ten_units)) (Examples.qz 1)
           None (Some (-1)) 3 (-1));
    [reflexivity | reflexivity | lia | lia].
Defined.

(** A bound below -1, given or derived, makes [np.zeros] refuse the
    shape: the function raises [ValueError] and no cell is evaluated. *)
Theorem frequency_recency_matrix_negative_bound
    (model : Model) (T : Qc) (mx mt : option Z) (max_x max_t : Z) :
  Plotting.default_bound model Data.frequency mx = Ok max_x →
  Plotting.default_bound model Data.T mt = Ok max_t →
  max_x < -1 ∨ max_t < -1 →
  Plotting.plot_frequency_recency_matrix model T mx mt = Raise ValueError.
Proof.
  intros Hmx Hmt Hneg. unfold Plotting.plot_frequency_recency_matrix.
  rewrite Hmx, Hmt. cbn [mbind result_bind Py.bind].
  unfold Np.zeros. by rewrite decide_True by lia.
Qed.

Lemma frequency_recency_matrix_negative_bound_witness :
  Plotting.plot_frequency_recency_matrix
    (Examples.toy_model None) (Examples.qz 1) (Some 4) (Some (-2)) = Raise ValueError.
Proof.
  apply (frequency_recency_matrix_negative_bound
           (Examples.toy_model None) (Examples.qz 1) (Some 4) (Some (-2)) 4 (-2));
    [reflexivity | reflexivity | lia].
Defined.

(** A model that was never fitted has no [data]: as soon as one bound is
    not given the function raises [AttributeError], whatever the other bound
    is. *)
Theorem frequency_recency_matrix_unfitted
    (model : Model) (T : Qc) (mx mt : option Z) :
  data model = None →
  mx = None ∨ mt = None →
  Plotting.plot_frequency_recency_matrix model T mx mt = Raise AttributeError.
Proof.
  intros Hd Hnone. unfold Plotting.plot_frequency_recency_matrix,
    Plotting.default_bound, get_data. rewrite Hd.
  destruct mx as [x|]; [|done]. destruct mt as [t|]; [|done].
  by destruct Hnone.
Qed.

Lemma frequency_recency_matrix_unfitted_witness :
  Plotting.plot_frequency_recency_matrix
    (Examples.toy_model None) (Examples.qz 1) (Some (-5)) None = Raise AttributeError.
Proof.
  apply (frequency_recency_matrix_unfitted
           (Examples.toy_model None) (Examples.qz 1) (Some (-5)) None);
    [reflexivity | right; reflexivity].
Defined.

(** A fitted model whose data has no rows: a bound that is not given is
    [int(nan)], and the function raises [ValueError]. *)
Theorem frequency_recency_matrix_empty_data
    (model : Model) (T : Qc) (mx mt : option Z) (d : Data.DataFrame) :
  data model = Some d →
  (mx = None ∧ Data.frequency d = []) ∨ (mt = None ∧ Data.T d = []) →
  Plotting.plot_frequency_recency_matrix model T mx mt = Raise ValueError.
Proof.
  intros Hd Hempty. unfold Plotting.plot_frequency_recency_matrix,
    Plotting.default_bound, get_data. rewrite Hd.
  cbn [mbind result_bind Py.bind].
  destruct mx as [x|].
  - destruct Hempty as [[? _]|[-> HT]]; [done|]. by rewrite HT.
  - destruct (Data.frequency d) as [|f fs] eqn:Hf; [done|].
    destruct Hempty as [[_ ?]|[-> HT]]; [done|]. rewrite HT.
    cbn [Pd.series_max Py.int mbind result_bind Py.bind]. done.
Qed.

Lemma frequency_recency_matrix_empty_data_witness :
  Plotting.plot_frequency_recency_matrix
    (Examples.toy_model (Some {| Data.frequency := []; Data.recency := []; Data.T := [] |}))
    (Examples.qz 1) (Some 3) None = Raise ValueError.
Proof.
  apply (frequency_recency_matrix_empty_data
           (Examples.toy_model (Some {| Data.frequency := []; Data.recency := []; Data.T := [] |}))
           (Examples.qz 1) (Some 3) None
           {| Data.frequency := []; Data.recency := []; Data.T := [] |});
    [reflexivity | right; split; reflexivity].
Defined.

(** The derived bound leaves no observation outside the grid: every
    observed value lies below the bound plus one, so its integer bucket is at
    most the bound; and the bound is the largest observed value cut toward
    zero, so it does not exceed a largest value that is not negative, and is
    not below one that is not positive. *)
Theorem default_bound_covers_observations
    (model : Model) (column : Data.DataFrame → list Qc) (d : Data.DataFrame) (bound : Z) :
  data model = Some d →
  Plotting.default_bound model column None = Ok bound →
  (∀ x, x ∈ column d → (x < Qc_of_Z (bound + 1))%Qc)
  ∧ ∃ m, Spec.is_max m (column d)
         ∧ ((Q2Qc 0 ≤ m)%Qc → (Qc_of_Z bound ≤ m)%Qc)
         ∧ ((m ≤ Q2Qc 0)%Qc → (m ≤ Qc_of_Z bound)%Qc).
Proof.
  intros Hd Hb.
  destruct (column d) as [|x0 xs] eqn:Hcol.
  { unfold Plotting.default_bound, get_data in Hb. rewrite Hd in Hb. simpl in Hb.
    by rewrite Hcol in Hb. }
  destruct (default_bound_None model column d Hd) as (m & z & Hmax & [Hpos Hneg] & Hz).
  { by rewrite Hcol. }
  rewrite Hb in Hz. injection Hz as <-. rewrite Hcol in Hmax. split.
  - intros x Hx. eapply Qcle_lt_trans; [by apply Hmax|].
    destruct (Qclt_le_dec m (Q2Qc 0)) as [Hm|Hm].
    + destruct Hneg as [_ Hle]; [by apply Qclt_le_weak|].
      eapply Qcle_lt_trans; [exact Hle|]. apply (proj1 (Z2Qc_inj_lt _ _)). lia.
    + by destruct (Hpos Hm).
  - exists m. split_and!; [done| |].
    + intros Hm. by destruct (Hpos Hm).
    + intros Hm. by destruct (Hneg Hm).
Qed.

Lemma default_bound_covers_observations_witness :
  (∀ x, x ∈ Data.T Examples.ten_units → (x < Qc_of_Z (10 + 1))%Qc)
  ∧ ∃ m, Spec.is_max m (Data.T Examples.ten_units)
         ∧ ((Q2Qc 0 ≤ m)%Qc → (Qc_of_Z 10 ≤ m)%Qc)
         ∧ ((m ≤ Q2Qc 0)%Qc → (m ≤ Qc_of_Z 10)%Qc).
Proof.
  apply (default_bound_covers_observations
           (Examples.toy_model (Some Examples.ten_units)) Data.T Examples.ten_units 10);
    reflexivity.
Defined.

(** ** [plot_calibration_purchases_vs_holdout_purchases]: errors, labels, means *)

Lemma kind_column_known (kind : string) :
  is_Some (Plotting.kind_column kind) ↔ kind ∈ Plotting.x_labels.*1.
Proof.
  unfold Plotting.kind_column, Plotting.x_labels. simpl.
  repeat case_decide; subst; rewrite ?elem_of_cons, ?elem_of_nil;
    (split; [intros [c Hc]|intros Hin]); try (by eauto); try discriminate;
    intuition congruence.
Qed.

Lemma mean2_groupby_keys {A} (key c1 c2 : A → Qc) (rows : list A) :
  (Pd.mean2 c1 c2 (Pd.groupby key rows)).*1 = Pd.group_keys key rows.
Proof.
  unfold Pd.mean2, Pd.groupby. rewrite <-!list_fmap_compose.
  induction (Pd.group_keys key rows) as [|k ks IH]; simpl; [done|]. by f_equal.
Qed.

Lemma filter_fst {B} (P : Qc → Prop) `{!∀ k, Decision (P k)} (l : list (Qc * B)) :
  (filter (λ g, P g.1) l).*1 = filter P l.*1.
Proof.
  induction l as [|[k b] l IH]; [done|].
  rewrite fmap_cons, !filter_cons. cbn [fst].
  destruct (decide (P k)); [rewrite fmap_cons|]; by rewrite IH.
Qed.

Lemma labels_up_to_n {A} (key c1 c2 : A → Qc) (rows : list A) (n : Z) :
  (filter (λ g, (g.1 ≤ Qc_of_Z n)%Qc) (Pd.mean2 c1 c2 (Pd.groupby key rows))).*1
  = filter (λ k, (k ≤ Qc_of_Z n)%Qc) (Pd.group_keys key rows).
Proof.
  rewrite <-(mean2_groupby_keys key c1 c2).
  exact (filter_fst (λ k : Qc, (k ≤ Qc_of_Z n)%Qc) _).
Qed.

Lemma StronglySorted_filter {A} (R : relation A) (P : A → Prop)
    `{!∀ x, Decision (P x)} (l : list A) :
  StronglySorted R l → StronglySorted R (filter P l).
Proof.
  induction 1 as [|x l Hs IH Hall]; [constructor|].
  rewrite filter_cons. case_decide; [|done].
  constructor; [done|].
  apply Forall_forall. intros y [_ Hy]%list_elem_of_filter.
  by eapply Forall_forall in Hall.
Qed.

Lemma summary_rows (model : Model) (rows : list Plotting.CalibrationHoldoutRow)
    (summary : list Plotting.SummaryRow) :
  Plotting.add_model_predictions model rows = Ok summary →
  Plotting.row <$> summary = rows.
Proof.
  destruct rows as [|r0 rest]; [done|]. intros [= <-].
  apply list_eq. intros [|i]; [done|]. simpl.
  change (list_fmap ?A ?B ?f ?l) with (f <$> l).
  rewrite !list_lookup_fmap. by destruct (rest !! i).
Qed.

Lemma aggregate_labels_spec (model : Model)
    (r0 : Plotting.CalibrationHoldoutRow) (rest : list Plotting.CalibrationHoldoutRow)
    (kind : string) (column : Plotting.SummaryRow → Qc) (n : Z) :
  Plotting.kind_column kind = Some column →
  ∃ summary out,
    Plotting.add_model_predictions model (r0 :: rest) = Ok summary
    ∧ Plotting.row <$> summary = r0 :: rest
    ∧ Plotting.plot_calibration_purchases_vs_holdout_purchases model (r0 :: rest) kind n
      = Ok out
    ∧ StronglySorted Qclt out.*1
    ∧ ∀ k, k ∈ out.*1 ↔ (k ≤ Qc_of_Z n)%Qc ∧ ∃ r, r ∈ summary ∧ column r = k.
Proof.
  intros Hkind.
  destruct (aggregate_result_by_label model r0 rest kind column n Hkind)
    as (summary & Hsum & Hplot).
  exists summary,
    (filter (λ g, (g.1 ≤ Qc_of_Z n)%Qc)
       (Pd.mean2 (λ r : Plotting.SummaryRow, Plotting.frequency_holdout (Plotting.row r))
          Plotting.model_predictions (Pd.groupby column summary))).
  split_and!; [done|by eapply summary_rows|exact Hplot|..].
  - rewrite labels_up_to_n.
    apply StronglySorted_filter, group_keys_sorted.
  - intros k. rewrite labels_up_to_n.
    rewrite list_elem_of_filter, elem_of_group_keys. done.
Qed.

(** How a call with one of the four kinds of [x_labels] ends.  A frame
    without rows raises [IndexError], whatever the kind.  A frame with rows
    raises exactly when no row has a covariate of at most [n]: [.ix[:n]]
    keeps no group then and [.plot] raises [TypeError] for the empty frame
    (as for [T_cal] with customers all older than [n]); otherwise the call
    plots a frame with at least one line. *)
Theorem aggregate_call_outcomes (model : Model) (n : Z) :
  (∀ kind, Plotting.plot_calibration_call model [] kind n
           = Some (inl (Pd.PyExn IndexError)))
  ∧ ∀ r0 rest kind column,
      Plotting.kind_column kind = Some column →
      ∃ summary,
        Plotting.add_model_predictions model (r0 :: rest) = Ok summary
        ∧ Plotting.row <$> summary = r0 :: rest
        ∧ ((∀ r, r ∈ summary → ¬ (column r ≤ Qc_of_Z n)%Qc) →
           Plotting.plot_calibration_call model (r0 :: rest) kind n
           = Some (inl Pd.TypeError))
        ∧ ((∃ r, r ∈ summary ∧ (column r ≤ Qc_of_Z n)%Qc) →
           ∃ frame,
             frame ≠ []
             ∧ Plotting.plot_calibration_purchases_vs_holdout_purchases
                 model (r0 :: rest) kind n = Ok frame
             ∧ Plotting.plot_calibration_call model (r0 :: rest) kind n
               = Some (inr frame)).
Proof.
  split; [done|]. intros r0 rest kind column Hkind.
  destruct (aggregate_labels_spec model r0 rest kind column n Hkind)
    as (summary & out & Hsum & Hrows & Hplot & _ & Hlabels).
  exists summary. split_and!; [done|done|..].
  - intros Hnone. unfold Plotting.plot_calibration_call. rewrite Hkind, Hplot.
    destruct out as [|[k v] out]; [done|]. exfalso.
    destruct (proj1 (Hlabels k)) as (Hle & r & Hr & Hcol); [apply list_elem_of_here|].
    apply (Hnone r Hr). by rewrite Hcol.
  - intros (r & Hr & Hle). exists out.
    assert (out ≠ []) as Hne.
    { intros ->. assert (column r ∈ ([] : list (Qc * (Qc * Qc))).*1) as Hin
        by (apply Hlabels; eauto).
      by apply elem_of_nil in Hin. }
    split_and!; [done|done|].
    unfold Plotting.plot_calibration_call. rewrite Hkind, Hplot.
    by destruct out.
Qed.

(** The labels of the result: strictly ascending, hence without
    repetition, and exactly the covariate values of the rows that are at most
    [n]. *)
Theorem aggregate_labels (model : Model)
    (r0 : Plotting.CalibrationHoldoutRow) (rest : list Plotting.CalibrationHoldoutRow)
    (kind : string) (column : Plotting.SummaryRow → Qc) (n : Z) :
  Plotting.kind_column kind = Some column →
  ∃ summary out,
    Plotting.add_model_predictions model (r0 :: rest) = Ok summary
    ∧ Plotting.row <$> summary = r0 :: rest
    ∧ Plotting.plot_calibration_purchases_vs_holdout_purchases model (r0 :: rest) kind n
      = Ok out
    ∧ StronglySorted Qclt out.*1
    ∧ ∀ k, k ∈ out.*1 ↔ (k ≤ Qc_of_Z n)%Qc ∧ ∃ r, r ∈ summary ∧ column r = k.
Proof. apply aggregate_labels_spec. Qed.

Lemma aggregate_labels_witness :
  ∃ summary out,
    Plotting.add_model_predictions (Examples.toy_model None) Examples.holdout_rows
      = Ok summary
    ∧ Plotting.row <$> summary = Examples.holdout_rows
    ∧ Plotting.plot_calibration_purchases_vs_holdout_purchases
        (Examples.toy_model None) Examples.holdout_rows "time_since_last_purchase" 4
      = Ok out
    ∧ StronglySorted Qclt out.*1
    ∧ ∀ k, k ∈ out.*1 ↔
        (k ≤ Qc_of_Z 4)%Qc
        ∧ ∃ r, r ∈ summary
               ∧ (Plotting.T_cal (Plotting.row r) - Plotting.recency_cal (Plotting.row r))%Qc = k.
Proof.
  apply (aggregate_labels (Examples.toy_model None)
           (Examples.holdout_row 2 1 5 3 3)
           [Examples.holdout_row 0 0 5 1 3; Examples.holdout_row 1 1 5 0 3;
            Examples.holdout_row 0 0 4 2 3]
           "time_since_last_purchase"
           (λ r, Plotting.T_cal (Plotting.row r) - Plotting.recency_cal (Plotting.row r))%Qc 4).
  reflexivity.
Defined.

Lemma sum_const (v : Qc) (xs : list Qc) :
  (∀ x, x ∈ xs → x = v) →
  foldr Qcplus (Q2Qc 0) xs = (Qc_of_Z (Z.of_nat (length xs)) * v)%Qc.
Proof.
  induction xs as [|x xs IH]; intros Hall.
  - cbn [foldr length]. change (Z.of_nat 0) with 0. rewrite Z2Qc_inj_0. ring.
  - cbn [foldr length]. rewrite IH by (intros y Hy; by apply Hall, list_elem_of_further).
    rewrite (Hall x) by apply list_elem_of_here.
    rewrite Nat2Z.inj_succ, <-Z.add_1_r, Z2Qc_inj_add, Z2Qc_inj_1. ring.
Qed.

(** The mean of a non-empty column whose entries all equal [v] is [v];
    in particular the mean of one entry is that entry. *)
Lemma mean_const (v : Qc) (xs : list Qc) :
  xs ≠ [] → (∀ x, x ∈ xs → x = v) → Pd.mean xs = v.
Proof.
  intros Hne Hall. unfold Pd.mean. rewrite (sum_const v) by done.
  destruct xs as [|x xs]; [done|]. cbn [length].
  field. apply Qc_of_nat_S_neq_0.
Qed.

(** Every line of the result carries the arithmetic means over exactly the
    rows whose covariate is its label, and there is at least one such row;
    when those rows all have the same number of holdout purchases (a single
    row, for one), the mean is that number. *)
Theorem aggregate_group_means (model : Model)
    (r0 : Plotting.CalibrationHoldoutRow) (rest : list Plotting.CalibrationHoldoutRow)
    (kind : string) (column : Plotting.SummaryRow → Qc) (n : Z) :
  Plotting.kind_column kind = Some column →
  ∃ summary out,
    Plotting.add_model_predictions model (r0 :: rest) = Ok summary
    ∧ Plotting.plot_calibration_purchases_vs_holdout_purchases model (r0 :: rest) kind n
      = Ok out
    ∧ ∀ k actual predicted, (k, (actual, predicted)) ∈ out →
        let members := filter (λ r, column r = k) summary in
        members ≠ []
        ∧ actual = Pd.mean ((λ r, Plotting.frequency_holdout (Plotting.row r)) <$> members)
        ∧ predicted = Pd.mean (Plotting.model_predictions <$> members)
        ∧ ∀ v, (∀ r, r ∈ members → Plotting.frequency_holdout (Plotting.row r) = v) →
               actual = v.
Proof.
  intros Hkind.
  destruct (aggregate_result_by_label model r0 rest kind column n Hkind)
    as (summary & Hsum & Hplot).
  exists summary. eexists. split_and!; [done|exact Hplot|].
  intros k actual predicted [_ Hin]%list_elem_of_filter members.
  unfold Pd.mean2, Pd.groupby in Hin.
  apply list_elem_of_fmap in Hin as ([k' g] & [= -> -> ->] & Hg).
  apply list_elem_of_fmap in Hg as (k'' & [= -> ->] & Hk). cbn [fst snd].
  apply elem_of_group_keys in Hk as (r & Hr & Hkey).
  assert (r ∈ members) as Hmem by by apply list_elem_of_filter.
  assert (members ≠ []) as Hne by (intros Heq; rewrite Heq in Hmem; inversion Hmem).
  split; [exact Hne|]. split; [reflexivity|]. split; [reflexivity|].
  intros v Hv. apply mean_const.
  - intros Heq%fmap_nil_inv. by apply Hne.
  - intros x (r' & -> & Hr')%list_elem_of_fmap. by apply Hv.
Qed.

Lemma aggregate_group_means_witness :
  ∃ summary out,
    Plotting.add_model_predictions (Examples.toy_model None) Examples.holdout_rows
      = Ok summary
    ∧ Plotting.plot_calibration_purchases_vs_holdout_purchases
        (Examples.toy_model None) Examples.holdout_rows "T_cal" 5
      = Ok out
    ∧ ∀ k actual predicted, (k, (actual, predicted)) ∈ out →
        let members := filter (λ r, Plotting.T_cal (Plotting.row r) = k) summary in
        members ≠ []
        ∧ actual = Pd.mean ((λ r, Plotting.frequency_holdout (Plotting.row r)) <$> members)
        ∧ predicted = Pd.mean (Plotting.model_predictions <$> members)
        ∧ ∀ v, (∀ r, r ∈ members → Plotting.frequency_holdout (Plotting.row r) = v) →
               actual = v.
Proof.
  apply (aggregate_group_means (Examples.toy_model None)
           (Examples.holdout_row 2 1 5 3 3)
           [Examples.holdout_row 0 0 5 1 3; Examples.holdout_row 1 1 5 0 3;
            Examples.holdout_row 0 0 4 2 3]
           "T_cal" (λ r, Plotting.T_cal (Plotting.row r)) 5).
  reflexivity.
Defined.

(** The covariate of a summary row is read off the input row alone. *)
Lemma kind_column_row (kind : string) (column : Plotting.SummaryRow → Qc)
    (s s' : Plotting.SummaryRow) :
  Plotting.kind_column kind = Some column →
  Plotting.row s = Plotting.row s' → column s = column s'.
Proof.
  unfold Plotting.kind_column. intros Hkind Hrow.
  repeat case_decide; try discriminate; injection Hkind as <-; by rewrite Hrow.
Qed.








Lemma StronglySorted_Qclt_NoDup (ks : list Qc) : StronglySorted Qclt ks → NoDup ks.
Proof.
  induction 1 as [|k ks Hs IH Hall]; constructor; [|done].
  intros Hin. eapply Forall_forall in Hall; [|exact Hin].
  by apply Qclt_not_eq in Hall.
Qed.

Lemma Qc_of_Z_inj : Inj (=) (=) Qc_of_Z.
Proof. intros x y. apply Z2Qc_inj. Qed.

(** How many lines the result has when the covariate is a count (a
    non-negative integer in every row, as [frequency_cal] is): at most
    [n + 1], the labels 0 to [n]; and exactly [n + 1] when each of 0 to [n]
    occurs in some row. *)
Theorem aggregate_counts_give_at_most_n_plus_one (model : Model)
    (r0 : Plotting.CalibrationHoldoutRow) (rest : list Plotting.CalibrationHoldoutRow)
    (kind : string) (column : Plotting.SummaryRow → Qc) (n : Z) :
  Plotting.kind_column kind = Some column →
  (∀ s, Plotting.row s ∈ r0 :: rest → ∃ z, 0 ≤ z ∧ column s = Qc_of_Z z) →
  ∃ out,
    Plotting.plot_calibration_purchases_vs_holdout_purchases model (r0 :: rest) kind n
      = Ok out
    ∧ (length out ≤ Z.to_nat (n + 1))%nat
    ∧ ((∀ z, 0 ≤ z ≤ n → ∃ s, Plotting.row s ∈ r0 :: rest ∧ column s = Qc_of_Z z) →
       length out = Z.to_nat (n + 1)).
Proof.
  intros Hkind Hcount.
  destruct (aggregate_labels_spec model r0 rest kind column n Hkind)
    as (summary & out & Hsum & Hrows & Hplot & Hsorted & Hlabels).
  exists out. split; [done|].
  apply StronglySorted_Qclt_NoDup in Hsorted.
  assert (∀ k, k ∈ out.*1 → k ∈ Qc_of_Z <$> seqZ 0 (n + 1)) as Hsub.
  { intros k (Hle & r & Hr & <-)%Hlabels.
    destruct (Hcount r) as (z & Hz & Hcol).
    { rewrite <-Hrows. apply list_elem_of_fmap. by exists r. }
    rewrite Hcol in Hle |- *. apply Z2Qc_inj_le in Hle.
    apply list_elem_of_fmap. exists z. split; [done|]. apply elem_of_seqZ. lia. }
  assert (length (Qc_of_Z <$> seqZ 0 (n + 1)) = Z.to_nat (n + 1)) as Hlen
    by by rewrite length_fmap, length_seqZ.
  split.
  - rewrite <-(length_fmap fst out), <-Hlen.
    by apply submseteq_length, NoDup_submseteq.
  - intros Hall. apply Nat.le_antisymm.
    + rewrite <-(length_fmap fst out), <-Hlen.
      by apply submseteq_length, NoDup_submseteq.
    + rewrite <-(length_fmap fst out), <-Hlen.
      apply submseteq_length, NoDup_submseteq.
      { apply (@NoDup_fmap_2 _ _ Qc_of_Z Qc_of_Z_inj), NoDup_seqZ. }
      intros k (z & -> & Hz%elem_of_seqZ)%list_elem_of_fmap.
      destruct (Hall z) as (s & Hs & Hcol); [lia|].
      apply Hlabels. split; [apply (proj1 (Z2Qc_inj_le _ _)); lia|].
      rewrite <-Hrows in Hs.
      apply list_elem_of_fmap in Hs as (s' & Hrow & Hin).
      exists s'. split; [done|]. rewrite <-Hcol.
      by apply (kind_column_row kind).
Qed.

Lemma aggregate_counts_give_at_most_n_plus_one_witness :
  ∃ out,
    Plotting.plot_calibration_purchases_vs_holdout_purchases
      (Examples.toy_model None) Examples.holdout_rows "frequency_cal" 1
      = Ok out
    ∧ (length out ≤ Z.to_nat (1 + 1))%nat
    ∧ ((∀ z, 0 ≤ z ≤ 1 →
          ∃ s, Plotting.row s ∈ Examples.holdout_rows
               ∧ Plotting.frequency_cal (Plotting.row s) = Qc_of_Z z) →
       length out = Z.to_nat (1 + 1)).
Proof.
  apply (aggregate_counts_give_at_most_n_plus_one (Examples.toy_model None)
           (Examples.holdout_row 2 1 5 3 3)
           [Examples.holdout_row 0 0 5 1 3; Examples.holdout_row 1 1 5 0 3;
            Examples.holdout_row 0 0 4 2 3]
           "frequency_cal" (λ r, Plotting.frequency_cal (Plotting.row r)) 1).
  - reflexivity.
  - intros s Hs. repeat (apply elem_of_cons in Hs as [->|Hs]);
      [by exists 2|by exists 0|by exists 1|by exists 0|by apply elem_of_nil in Hs].
Defined.

(** ** [plot_expected_repeat_purchases]: missing data, and the shape of the two ranges *)

(** Without data the two curves cannot be drawn, but only an unfitted
    model is an error: a model that was never fitted raises
    [AttributeError], while a model fitted on no rows raises nothing and
    returns 100 + 100 time points that are all NaN, each mapped through the
    model. *)
Theorem repeat_purchase_curves_without_data (model : Model) :
  (data model = None →
   Plotting.plot_expected_repeat_purchases model = Raise AttributeError)
  ∧ (∀ d, data model = Some d → Data.T d = [] →
       Plotting.plot_expected_repeat_purchases model
       = Ok ((replicate 100 NaN,
              replicate 100 (expected_number_of_purchases_up_to_time model NaN)),
             (replicate 100 NaN,
              replicate 100 (expected_number_of_purchases_up_to_time model NaN)))).
Proof.
  split.
  - intros Hd. unfold Plotting.plot_expected_repeat_purchases, get_data. by rewrite Hd.
  - intros d Hd HT. rewrite (plot_expected_repeat_purchases_spec model d Hd). cbv zeta.
    rewrite HT. cbn [Pd.series_max].
    assert (∀ start, Np.linspace start NaN 100 = replicate 100 NaN) as Hnan.
    { intros start. apply list_eq. intros i.
      destruct (decide (i < 99)%nat) as [Hi|Hi].
      - rewrite linspace_lookup by lia. rewrite lookup_replicate_2 by lia.
        by destruct start.
      - destruct (decide (i = 99%nat)) as [->|Hne].
        + rewrite linspace_last. by rewrite lookup_replicate_2 by lia.
        + rewrite !lookup_ge_None_2; [done|rewrite length_replicate; lia
                                      |rewrite length_linspace; lia]. }
    change (fmul (Fin (Q2Qc (3 # 2))) NaN) with NaN.
    by rewrite !Hnan, !fmap_replicate.
Qed.

Lemma point_monotone (a s : Qc) (i j : nat) :
  (Q2Qc 0 < s)%Qc → (i < j)%nat →
  (a + Qc_of_Z (Z.of_nat i) * s < a + Qc_of_Z (Z.of_nat j) * s)%Qc.
Proof.
  intros Hs Hij. apply (proj1 (Qcplus_lt_mono_l _ _ _)).
  apply (proj1 (Qcmult_lt_mono_pos_r _ _ _ Hs)).
  apply (proj1 (Z2Qc_inj_lt _ _)). lia.
Qed.

Lemma evenly_spaced_increasing (a b : Qc) (n : nat) (ts : list pyfloat) :
  Spec.evenly_spaced a b (S (S n)) ts → (a < b)%Qc →
  ∀ (i j : nat) p q, ts !! i = Some p → ts !! j = Some q → (i < j)%nat →
    ∃ p' q', p = Fin p' ∧ q = Fin q' ∧ (a ≤ p')%Qc ∧ (p' < q')%Qc ∧ (q' ≤ b)%Qc.
Proof.
  intros [Hlen Hts] Hab i j p q Hp Hq Hij.
  assert (j < S (S n))%nat as Hj by (rewrite <-Hlen; by eapply lookup_lt_Some).
  rewrite Hts in Hp, Hq by lia. injection Hp as <-. injection Hq as <-.
  replace (Z.of_nat (S (S n)) - 1) with (Z.of_nat (S n)) by lia.
  pose proof (Qc_of_nat_S_neq_0 n) as Hn.
  set (s := ((b - a) / Qc_of_Z (Z.of_nat (S n)))%Qc).
  assert (Q2Qc 0 < s)%Qc as Hs.
  { unfold s, Qcdiv. apply Qcmult_pos_pos.
    - apply (proj2 (Qcplus_lt_mono_r _ _ a)). by ring_simplify.
    - apply Qcinv_pos. rewrite <-Z2Qc_inj_0. apply (proj1 (Z2Qc_inj_lt _ _)). lia. }
  assert (∀ k : nat,
            (a + Qc_of_Z (Z.of_nat k) * (b - a) / Qc_of_Z (Z.of_nat (S n))
             = a + Qc_of_Z (Z.of_nat k) * s)%Qc) as Hform.
  { intros k. unfold s. field. exact Hn. }
  eexists _, _. split_and!; [done|done|..]; rewrite ?Hform.
  - destruct i as [|i].
    + change (Z.of_nat 0) with 0. rewrite Z2Qc_inj_0. ring_simplify. apply Qcle_refl.
    + apply Qclt_le_weak. replace a with (a + Qc_of_Z (Z.of_nat 0) * s)%Qc at 1
        by (change (Z.of_nat 0) with 0; rewrite Z2Qc_inj_0; ring).
      apply point_monotone; [done|lia].
  - by apply point_monotone.
  - assert (b = a + Qc_of_Z (Z.of_nat (S n)) * s)%Qc as Hb
      by (unfold s; field; exact Hn).
    rewrite Hb at 1. destruct (decide (j = S n)) as [->|Hne]; [apply Qcle_refl|].
    apply Qclt_le_weak, point_monotone; [done|lia].
Qed.

(** With a positive largest age both series run strictly upwards, the
    solid one inside [[0, max_T]] and the dashed one inside
    [[max_T, 1.5 * max_T]]. *)
Theorem repeat_purchase_curves_increasing
    (model : Model) (d : Data.DataFrame) (max_T : Qc) :
  data model = Some d →
  Pd.series_max (Data.T d) = Fin max_T →
  (Qc_of_Z 0 < max_T)%Qc →
  ∃ t1 v1 t2 v2,
    Plotting.plot_expected_repeat_purchases model = Ok ((t1, v1), (t2, v2))
    ∧ (∀ (i j : nat) p q, t1 !! i = Some p → t1 !! j = Some q → (i < j)%nat →
         ∃ p' q', p = Fin p' ∧ q = Fin q'
                  ∧ (Qc_of_Z 0 ≤ p')%Qc ∧ (p' < q')%Qc ∧ (q' ≤ max_T)%Qc)
    ∧ (∀ (i j : nat) p q, t2 !! i = Some p → t2 !! j = Some q → (i < j)%nat →
         ∃ p' q', p = Fin p' ∧ q = Fin q'
                  ∧ (max_T ≤ p')%Qc ∧ (p' < q')%Qc ∧ (q' ≤ Q2Qc (3 # 2) * max_T)%Qc).
Proof.
  intros Hd Hmax Hpos. eexists _, _, _, _.
  split; [by apply plot_expected_repeat_purchases_spec|].
  rewrite Hmax. cbn [fmul lift2]. split.
  - apply (evenly_spaced_increasing _ _ 98); [apply linspace_evenly_spaced|done].
  - apply (evenly_spaced_increasing _ _ 98); [apply linspace_evenly_spaced|].
    rewrite Z2Qc_inj_0 in Hpos.
    apply (proj2 (Qcplus_lt_mono_r _ _ (- max_T))).
    replace (max_T + - max_T)%Qc with (Q2Qc 0) by ring.
    replace (Q2Qc (3 # 2) * max_T + - max_T)%Qc with (Q2Qc (1 # 2) * max_T)%Qc.
    + by apply Qcmult_pos_pos.
    + assert (Q2Qc (3 # 2) = Q2Qc (1 # 2) + Q2Qc 1)%Qc as -> by by apply Qc_is_canon.
      ring.
Qed.

Lemma repeat_purchase_curves_increasing_witness :
  ∃ t1 v1 t2 v2,
    Plotting.plot_expected_repeat_purchases (Examples.toy_model (Some Examples.ten_units))
      = Ok ((t1, v1), (t2, v2))
    ∧ (∀ (i j : nat) p q, t1 !! i = Some p → t1 !! j = Some q → (i < j)%nat →
         ∃ p' q', p = Fin p' ∧ q = Fin q'
                  ∧ (Qc_of_Z 0 ≤ p')%Qc ∧ (p' < q')%Qc ∧ (q' ≤ Qc_of_Z 10)%Qc)
    ∧ (∀ (i j : nat) p q, t2 !! i = Some p → t2 !! j = Some q → (i < j)%nat →
         ∃ p' q', p = Fin p' ∧ q = Fin q'
                  ∧ (Qc_of_Z 10 ≤ p')%Qc ∧ (p' < q')%Qc
                  ∧ (q' ≤ Q2Qc (3 # 2) * Qc_of_Z 10)%Qc).
Proof.
  apply (repeat_purchase_curves_increasing
           (Examples.toy_model (Some Examples.ten_units)) Examples.ten_units (Qc_of_Z 10));
    [reflexivity | reflexivity | apply (proj1 (Z2Qc_inj_lt _ _)); lia].
Defined.

(** The dashed curve is sampled twice as densely as the solid one: the
    distance between neighbouring time points of the dashed curve is half the
    distance between neighbouring points of the solid curve. *)
Theorem repeat_purchase_dashed_step_is_half
    (model : Model) (d : Data.DataFrame) (max_T : Qc) :
  data model = Some d →
  Pd.series_max (Data.T d) = Fin max_T →
  ∃ t1 v1 t2 v2,
    Plotting.plot_expected_repeat_purchases model = Ok ((t1, v1), (t2, v2))
    ∧ ∀ i : nat, (i < 99)%nat →
        ∃ p p' q q',
          t1 !! i = Some (Fin p) ∧ t1 !! S i = Some (Fin p')
          ∧ t2 !! i = Some (Fin q) ∧ t2 !! S i = Some (Fin q')
          ∧ (p' - p = max_T / Qc_of_Z 99)%Qc
          ∧ (q' - q = (p' - p) / Qc_of_Z 2)%Qc.
Proof.
  intros Hd Hmax. eexists _, _, _, _.
  split; [by apply plot_expected_repeat_purchases_spec|].
  rewrite Hmax. cbn [fmul lift2]. intros i Hi.
  destruct (evenly_spaced_steps _ _ _ _
              (linspace_evenly_spaced (Qc_of_Z 0) max_T 98)) as (_ & _ & H1).
  destruct (evenly_spaced_steps _ _ _ _
              (linspace_evenly_spaced max_T (Q2Qc (3 # 2) * max_T)%Qc 98)) as (_ & _ & H2).
  destruct (H1 i Hi) as (p & p' & Hp & Hp' & Hstep1).
  destruct (H2 i Hi) as (q & q' & Hq & Hq' & Hstep2).
  exists p, p', q, q'. split_and!; [done..| |].
  - rewrite Hstep1. change (Z.of_nat 99) with 99. rewrite Z2Qc_inj_0. field.
    rewrite <-Z2Qc_inj_0. intros H%Z2Qc_inj. lia.
  - rewrite Hstep2, Hstep1. change (Z.of_nat 99) with 99. rewrite Z2Qc_inj_0.
    assert (Q2Qc (3 # 2) = Q2Qc 1 + Q2Qc 1 / Qc_of_Z 2)%Qc as -> by by apply Qc_is_canon.
    field. split; rewrite <-Z2Qc_inj_0; intros H%Z2Qc_inj; lia.
Qed.

Lemma repeat_purchase_dashed_step_is_half_witness :
  ∃ t1 v1 t2 v2,
    Plotting.plot_expected_repeat_purchases (Examples.toy_model (Some Examples.ten_units))
      = Ok ((t1, v1), (t2, v2))
    ∧ ∀ i : nat, (i < 99)%nat →
        ∃ p p' q q',
          t1 !! i = Some (Fin p) ∧ t1 !! S i = Some (Fin p')
          ∧ t2 !! i = Some (Fin q) ∧ t2 !! S i = Some (Fin q')
          ∧ (p' - p = Qc_of_Z 10 / Qc_of_Z 99)%Qc
          ∧ (q' - q = (p' - p) / Qc_of_Z 2)%Qc.
Proof.
  apply (repeat_purchase_dashed_step_is_half
           (Examples.toy_model (Some Examples.ten_units)) Examples.ten_units (Qc_of_Z 10));
    reflexivity.
Defined.

(** ** [forceAspect] *)

Lemma abs_cases (x : Qc) :
  (Builtins.abs x = x ∧ (Q2Qc 0 ≤ x)%Qc) ∨ (Builtins.abs x = (- x)%Qc ∧ (x < Q2Qc 0)%Qc).
Proof.
  unfold Builtins.abs. case_decide; [by left|right].
  split; [done|]. by apply Qclt_nge.
Qed.

Lemma opp_nonneg (y : Qc) : (y < Q2Qc 0)%Qc → (Q2Qc 0 ≤ - y)%Qc.
Proof.
  intros Hy. apply Qclt_le_weak. apply (proj2 (Qcplus_lt_mono_r _ _ y)).
  ring_simplify. by replace (0 + y)%Qc with y by ring.
Qed.

Lemma abs_nonneg (x : Qc) : (Q2Qc 0 ≤ Builtins.abs x)%Qc.
Proof.
  destruct (abs_cases x) as [[-> ?]|[-> Hx]]; [done|by apply opp_nonneg].
Qed.

Lemma abs_of_nonneg (x : Qc) : (Q2Qc 0 ≤ x)%Qc → Builtins.abs x = x.
Proof. intros Hx. unfold Builtins.abs. by rewrite decide_True. Qed.

Lemma abs_opp (x : Qc) : Builtins.abs (- x) = Builtins.abs x.
Proof.
  destruct (abs_cases x) as [[Hx H0]|[Hx H0]]; rewrite Hx.
  - destruct (abs_cases (- x)) as [[Hy H1]|[Hy H1]]; rewrite Hy; [|ring].
    assert (x ≤ Q2Qc 0)%Qc as H2.
    { apply (proj2 (Qcplus_le_mono_r _ _ (- x))). ring_simplify.
      by replace (0 - x)%Qc with (- x)%Qc by ring. }
    assert (x = Q2Qc 0) as -> by by apply Qcle_antisym. ring.
  - apply abs_of_nonneg. by apply opp_nonneg.
Qed.

Lemma abs_mult (x y : Qc) :
  Builtins.abs (x * y) = (Builtins.abs x * Builtins.abs y)%Qc.
Proof.
  assert (∀ a b : Qc, (Q2Qc 0 ≤ a)%Qc → (Q2Qc 0 ≤ b)%Qc →
            Builtins.abs (a * b) = (a * b)%Qc) as Hpos.
  { intros a b Ha Hb. apply abs_of_nonneg. by apply Qcmult_nonneg_nonneg. }
  pose proof opp_nonneg as Hneg.
  destruct (abs_cases x) as [[-> Hx]|[-> Hx]], (abs_cases y) as [[-> Hy]|[-> Hy]].
  - by apply Hpos.
  - replace (x * y)%Qc with (- (x * - y))%Qc by ring.
    rewrite abs_opp. apply Hpos; [done|by apply Hneg].
  - replace (x * y)%Qc with (- (- x * y))%Qc by ring.
    rewrite abs_opp. apply Hpos; [by apply Hneg|done].
  - replace (x * y)%Qc with (- x * - y)%Qc by ring.
    apply Hpos; by apply Hneg.
Qed.

Lemma forceAspect_spec
    (x0 x1 y0 y1 : Qc) (others : list Mpl.extent) (aspect : Qc) :
  y1 ≠ y0 → aspect ≠ Q2Qc 0 →
  ∃ a, Plotting.forceAspect ((x0, x1, y0, y1) :: others) aspect = inr a
       ∧ (a * aspect * Builtins.abs (y1 - y0) = Builtins.abs (x1 - x0))%Qc
       ∧ ((Q2Qc 0 < aspect)%Qc → (Q2Qc 0 ≤ a)%Qc).
Proof.
  intros Hy Ha.
  assert ((y1 - y0)%Qc ≠ Q2Qc 0) as Hh.
  { intros Heq. apply Hy. replace y1 with ((y1 - y0) + y0)%Qc by ring.
    rewrite Heq. ring. }
  unfold Plotting.forceAspect, Builtins.truediv.
  rewrite !decide_False by done. eexists. split; [done|]. split.
  - replace (x1 - x0)%Qc with ((x1 - x0) / (y1 - y0) * (y1 - y0))%Qc at 2 by by field.
    rewrite abs_mult. by field.
  - intros Hpos. unfold Qcdiv. apply Qcmult_nonneg_nonneg; [apply abs_nonneg|].
    by apply Qclt_le_weak, Qcinv_pos.
Qed.

(** "Turn matrix into square": for an image of non-zero height and a
    non-zero [aspect], the value given to [set_aspect], times [aspect], times
    the height of the image, is the width of the image; and it is not
    negative for a positive [aspect]. *)
Theorem forceAspect_makes_the_box_square
    (x0 x1 y0 y1 : Qc) (others : list Mpl.extent) (aspect : Qc) :
  y1 ≠ y0 → aspect ≠ Q2Qc 0 →
  ∃ a, Plotting.forceAspect ((x0, x1, y0, y1) :: others) aspect = inr a
       ∧ (a * aspect * Builtins.abs (y1 - y0) = Builtins.abs (x1 - x0))%Qc
       ∧ ((Q2Qc 0 < aspect)%Qc → (Q2Qc 0 ≤ a)%Qc).
Proof. apply forceAspect_spec. Qed.

Lemma forceAspect_makes_the_box_square_witness :
  ∃ a, Plotting.forceAspect [Mpl.imshow_extent 31 6] (Q2Qc 1) = inr a
       ∧ (a * Q2Qc 1
          * Builtins.abs (- Q2Qc (1 # 2) - (Qc_of_Z (Z.of_nat 31) - Q2Qc (1 # 2)))
          = Builtins.abs (Qc_of_Z (Z.of_nat 6) - Q2Qc (1 # 2) - - Q2Qc (1 # 2)))%Qc
       ∧ ((Q2Qc 0 < Q2Qc 1)%Qc → (Q2Qc 0 ≤ a)%Qc).
Proof.
  apply (forceAspect_makes_the_box_square
           (- Q2Qc (1 # 2))%Qc (Qc_of_Z (Z.of_nat 6) - Q2Qc (1 # 2))%Qc
           (Qc_of_Z (Z.of_nat 31) - Q2Qc (1 # 2))%Qc (- Q2Qc (1 # 2))%Qc [] (Q2Qc 1)).
  - intros H. apply (f_equal this) in H. discriminate H.
  - intros H. apply (f_equal this) in H. discriminate H.
Defined.

Lemma forceAspect_imshow (rows cols : nat) :
  (0 < rows)%nat →
  Plotting.forceAspect [Mpl.imshow_extent rows cols] (Q2Qc 1)
  = inr (Qc_of_Z (Z.of_nat cols) / Qc_of_Z (Z.of_nat rows))%Qc.
Proof.
  intros Hrows.
  assert (Qc_of_Z (Z.of_nat rows) ≠ Q2Qc 0) as Hr.
  { rewrite <-Z2Qc_inj_0. intros H%Z2Qc_inj. lia. }
  assert (Q2Qc 1 ≠ Q2Qc 0) as H1.
  { intros H. apply (f_equal this) in H. discriminate H. }
  assert ((- Q2Qc (1 # 2) - (Qc_of_Z (Z.of_nat rows) - Q2Qc (1 # 2)))%Qc ≠ Q2Qc 0) as Hden.
  { intros Heq. apply Hr.
    replace (Qc_of_Z (Z.of_nat rows))
      with (- (- Q2Qc (1 # 2) - (Qc_of_Z (Z.of_nat rows) - Q2Qc (1 # 2))))%Qc by ring.
    rewrite Heq. ring. }
  unfold Plotting.forceAspect, Mpl.imshow_extent, Builtins.truediv.
  rewrite !decide_False by done. f_equal.
  replace ((Qc_of_Z (Z.of_nat cols) - Q2Qc (1 # 2) - - Q2Qc (1 # 2))
           / (- Q2Qc (1 # 2) - (Qc_of_Z (Z.of_nat rows) - Q2Qc (1 # 2))))%Qc
    with (- (Qc_of_Z (Z.of_nat cols) / Qc_of_Z (Z.of_nat rows)))%Qc
    by (field; split; done).
  rewrite abs_opp, abs_of_nonneg; [by field|].
  unfold Qcdiv. apply Qcmult_nonneg_nonneg.
  - rewrite <-Z2Qc_inj_0. apply (proj1 (Z2Qc_inj_le _ _)). lia.
  - apply Qclt_le_weak, Qcinv_pos. rewrite <-Z2Qc_inj_0.
    apply (proj1 (Z2Qc_inj_lt _ _)). lia.
Qed.

(** [plot_frequency_recency_matrix] followed by [forceAspect]: with bounds
    that are not negative, and the extent [imshow] gives the matrix by
    default, [forceAspect] raises nothing and sets the aspect
    [(max_x + 1) / (max_t + 1)], columns over rows. *)
Theorem frequency_recency_matrix_aspect
    (model : Model) (T : Qc) (mx mt : option Z) (max_x max_t : Z) :
  Plotting.default_bound model Data.frequency mx = Ok max_x →
  Plotting.default_bound model Data.T mt = Ok max_t →
  0 ≤ max_x → 0 ≤ max_t →
  ∃ g rows cols,
    Plotting.plot_frequency_recency_matrix model T mx mt = Ok g
    ∧ Np.has_shape g rows cols
    ∧ Plotting.forceAspect [Mpl.imshow_extent rows cols] (Q2Qc 1)
      = inr (Qc_of_Z (max_x + 1) / Qc_of_Z (max_t + 1))%Qc.
Proof.
  intros Hmx Hmt Hx Ht.
  destruct (plot_frequency_recency_matrix_spec model T mx mt max_x max_t)
    as (g & Hg & Hs & _); [done|done|lia|lia|].
  exists g, (Z.to_nat (max_t + 1)), (Z.to_nat (max_x + 1)).
  split_and!; [done|done|].
  rewrite forceAspect_imshow by lia. by rewrite !Z2Nat.id by lia.
Qed.

Lemma frequency_recency_matrix_aspect_witness :
  ∃ g rows cols,
    Plotting.plot_frequency_recency_matrix
      (Examples.toy_model (Some Examples.three_customers)) (Examples.qz 1) None None = Ok g
    ∧ Np.has_shape g rows cols
    ∧ Plotting.forceAspect [Mpl.imshow_extent rows cols] (Q2Qc 1)
      = inr (Qc_of_Z (5 + 1) / Qc_of_Z (30 + 1))%Qc.
Proof.
  apply (frequency_recency_matrix_aspect
           (Examples.toy_model (Some Examples.three_customers)) (Examples.qz 1)
           None None 5 30);
    [reflexivity | reflexivity | lia | lia].
Defined.

(** ** The ticks of [plot_period_transactions] *)

Lemma length_but_last {A} (l : list A) :
  length (Builtins.but_last l) = (length l - 1)%nat.
Proof. unfold Builtins.but_last. rewrite length_take. lia. Qed.

Lemma lookup_but_last {A} (l : list A) (i : nat) :
  (S i < length l)%nat → Builtins.but_last l !! i = l !! i.
Proof. intros Hi. unfold Builtins.but_last. apply lookup_take_lt. lia. Qed.

(** There are as many tick positions as tick labels, one pair per bin:
    tick [i] stands at [i + 0.5] and is labelled with the left edge of bin
    [i].  For [bins = range(k)], the default being [range(9)], that position
    is the middle of the bin. *)
Theorem period_xticks_spec (bins : list Qc) :
  length (Plotting.period_xticks bins).1 = (length bins - 1)%nat
  ∧ length (Plotting.period_xticks bins).2 = (length bins - 1)%nat
  ∧ (∀ (i : nat) left right, bins !! i = Some left → bins !! S i = Some right →
       (Plotting.period_xticks bins).1 !! i
         = Some (Qc_of_Z (Z.of_nat i) + Q2Qc (1 # 2))%Qc
       ∧ (Plotting.period_xticks bins).2 !! i = Some left)
  ∧ ∀ (k : Z) (i : nat) left right,
      bins = Builtins.range k → bins !! i = Some left → bins !! S i = Some right →
      (Plotting.period_xticks bins).1 !! i = Some ((left + right) / Qc_of_Z 2)%Qc.
Proof.
  assert (∀ (i : nat) left right, bins !! i = Some left → bins !! S i = Some right →
            (Plotting.period_xticks bins).1 !! i
              = Some (Qc_of_Z (Z.of_nat i) + Q2Qc (1 # 2))%Qc
            ∧ (Plotting.period_xticks bins).2 !! i = Some left) as Hticks.
  { intros i left right Hl Hr.
    assert (S i < length bins)%nat as Hi by by eapply lookup_lt_Some.
    unfold Plotting.period_xticks. cbn [fst snd]. split.
    - rewrite list_lookup_fmap, lookup_but_last
        by (unfold Np.arange; rewrite length_seqZ; lia).
      unfold Np.arange. rewrite lookup_seqZ_lt by lia. by rewrite Z.add_0_l.
    - by rewrite lookup_but_last. }
  unfold Plotting.period_xticks at 1 2. cbn [fst snd]. split_and!.
  - rewrite length_fmap, length_but_last. unfold Np.arange.
    rewrite length_seqZ. lia.
  - apply length_but_last.
  - exact Hticks.
  - intros k i left right -> Hl Hr.
    destruct (Hticks i left right Hl Hr) as [-> _]. f_equal.
    unfold Builtins.range in Hl, Hr. rewrite list_lookup_fmap in Hl, Hr.
    destruct (seqZ 0 k !! i) as [z|] eqn:Hz; [|done].
    destruct (seqZ 0 k !! S i) as [z'|] eqn:Hz'; [|done].
    apply lookup_seqZ in Hz as [-> _]. apply lookup_seqZ in Hz' as [-> _].
    injection Hl as <-. injection Hr as <-.
    rewrite !Z.add_0_l, Nat2Z.inj_succ, <-Z.add_1_r, Z2Qc_inj_add, Z2Qc_inj_1.
    assert (Q2Qc (1 # 2) = Q2Qc 1 / Qc_of_Z 2)%Qc as -> by by apply Qc_is_canon.
    rewrite Z2Qc_inj_2. field. intros H. apply (f_equal this) in H. discriminate H.
Qed.

(** ** The title of [plot_frequency_recency_matrix] *)

(** For a horizon [T] from 1 up to, but not including, 2 the title prints
    the number 1 ([%d] truncates), and the noun is in the singular only for
    [T = 1]: every other such [T] is announced as "1 Units". *)
Theorem frequency_recency_title_units (T : Qc) :
  (Qc_of_Z 1 ≤ T)%Qc → (T < Qc_of_Z 2)%Qc →
  Plotting.frequency_recency_title T
  = "Expected Number of Future Purchases for 1 Unit"
    +:+ (if decide (T = Qc_of_Z 1) then "" else "s")
    +:+ " of Time," +:+ String (Ascii.ascii_of_nat 10) "by Frequency and Recency of a Customer".
Proof.
  intros H1 H2.
  assert (Builtins.trunc T = 1) as Htrunc.
  { destruct (int_truncated T) as (z & [= <-] & [Hpos _]).
    destruct Hpos as [Hlo Hhi].
    { eapply Qcle_trans; [|exact H1]. rewrite <-Z2Qc_inj_0.
      apply (proj1 (Z2Qc_inj_le _ _)). lia. }
    change (Z.quot _ _) with (Builtins.trunc T) in Hlo, Hhi.
    assert (Builtins.trunc T < 2) by (apply Z2Qc_inj_lt; by eapply Qcle_lt_trans).
    assert (1 < Builtins.trunc T + 1) by (apply Z2Qc_inj_lt; by eapply Qcle_lt_trans).
    lia. }
  unfold Plotting.frequency_recency_title. rewrite Htrunc.
  by destruct (decide (T = Qc_of_Z 1)).
Qed.

Lemma frequency_recency_title_units_witness :
  Plotting.frequency_recency_title (Q2Qc (3 # 2))
  = "Expected Number of Future Purchases for 1 Unit"
    +:+ (if decide (Q2Qc (3 # 2) = Qc_of_Z 1) then "" else "s")
    +:+ " of Time," +:+ String (Ascii.ascii_of_nat 10) "by Frequency and Recency of a Customer".
Proof.
  apply (frequency_recency_title_units (Q2Qc (3 # 2))).
  - apply (bool_decide_unpack _). vm_compute. exact I.
  - apply (bool_decide_unpack _). vm_compute. exact I.
Defined.

(** ** The x-axis of [plot_history_alive] *)

Lemma min_le_all (x : Z) (xs : list Z) :
  foldl Z.min x xs ≤ x ∧ Forall (λ ts, foldl Z.min x xs ≤ ts) xs.
Proof.
  revert x. induction xs as [|y ys IH]; intros x; simpl; [split; [lia|constructor]|].
  destruct (IH (x `min` y)) as [Hle Hall]. split; [lia|].
  constructor; [lia|done].
Qed.

Lemma min_in (x : Z) (xs : list Z) : foldl Z.min x xs ∈ x :: xs.
Proof.
  revert x. induction xs as [|y ys IH]; intros x; simpl; [apply list_elem_of_here|].
  specialize (IH (x `min` y)). apply elem_of_cons in IH as [->|Hin].
  - destruct (Z.min_spec x y) as [[_ ->]|[_ ->]];
      [apply list_elem_of_here|apply list_elem_of_further, list_elem_of_here].
  - by do 2 apply list_elem_of_further.
Qed.

Lemma last_generate_range (freq : Pd.DateOffset) (cur : Z) (periods : nat) :
  last (Pd.generate_range freq cur (S periods))
  = Some (Nat.iter periods (Pd.shift freq) cur).
Proof.
  revert cur. induction periods as [|periods IH]; intros cur; [done|].
  rewrite Nat.iter_succ_r, <-IH.
  change (Pd.generate_range freq cur (S (S periods)))
    with (cur :: Pd.generate_range freq (Pd.shift freq cur) (S periods)).
  rewrite last_cons. by rewrite IH.
Qed.

Lemma iter_tick (step : positive) (cur : Z) (k : nat) :
  Nat.iter k (Pd.shift (Pd.tick step)) cur = cur + Z.of_nat k * Z.pos step.
Proof.
  induction k as [|k IH]; [cbn; lia|].
  rewrite Nat.iter_succ, IH. cbn [Pd.shift Pd.tick]. lia.
Qed.

(** The x-axis of the history plot.  Its left end is the keyword
    [start_date] when the caller passes it and the first transaction
    otherwise; its right end is the last date of the path: the first
    transaction rolled onto the frequency and moved on by [len(path) - 1]
    periods, which for a tick frequency of [step] ticks is the first
    transaction plus [(len(path) - 1) * step].  An empty history raises
    [ValueError] even when [start_date] is passed, and an empty path raises
    [IndexError]. *)
Theorem history_alive_xlim_spec (transactions : list Z) (path : list Qc)
    (freq : Pd.DateOffset) (start_date : option Z) :
  (transactions = [] →
   Plotting.history_alive_xlim transactions path freq start_date = Raise ValueError)
  ∧ (transactions ≠ [] → path = [] →
     Plotting.history_alive_xlim transactions path freq start_date = Raise IndexError)
  ∧ (transactions ≠ [] → path ≠ [] →
     ∃ first,
       first ∈ transactions
       ∧ Forall (λ ts, first ≤ ts) transactions
       ∧ Plotting.history_alive_xlim transactions path freq start_date
         = Ok (default first start_date,
               Nat.iter (length path - 1) (Pd.shift freq) (Pd.rollforward freq first))
       ∧ ∀ step, freq = Pd.tick step →
           Plotting.history_alive_xlim transactions path freq start_date
           = Ok (default first start_date,
                 first + (Z.of_nat (length path) - 1) * Z.pos step)
           ∧ first ≤ first + (Z.of_nat (length path) - 1) * Z.pos step).
Proof.
  split_and!.
  - by intros ->.
  - intros Hts ->. by destruct transactions.
  - intros Hts Hpath. destruct transactions as [|ts0 rest]; [done|].
    destruct path as [|p path]; [done|].
    assert (Plotting.history_alive_xlim (ts0 :: rest) (p :: path) freq start_date
            = Ok (default (foldl Z.min ts0 rest) start_date,
                  Nat.iter (length (p :: path) - 1) (Pd.shift freq)
                    (Pd.rollforward freq (foldl Z.min ts0 rest)))) as Hxlim.
    { unfold Plotting.history_alive_xlim. cbn [Py.min mbind result_bind Py.bind].
      unfold Pd.date_range. cbn [length]. rewrite last_generate_range.
      do 3 f_equal. lia. }
    exists (foldl Z.min ts0 rest). split_and!.
    + apply min_in.
    + destruct (min_le_all ts0 rest). by constructor.
    + exact Hxlim.
    + intros step ->. rewrite Hxlim, iter_tick. cbn [length Pd.rollforward Pd.tick].
      split; [do 3 f_equal; lia|lia].
Qed.
